(** * The AppMesh backend of moto: a shallow embedding

    The development follows [moto/appmesh/models.py].  The backend keeps its
    meshes in a Python [dict] keyed by mesh name; every method of
    [AppMeshBackend] is embedded as a computation over the backend state
    that either returns a value or raises a Python exception, keeping the
    writes made before the exception was raised. *)

From Stdlib Require Import ZArith Lia.
From stdpp Require Import base option list strings gmap.

Local Open Scope Z_scope.
Local Open Scope string_scope.

(** ** Python dictionaries that remember insertion order

    [self.meshes] is iterated by [list_meshes], so the order of the keys is
    observable.  A Python [dict] keeps its keys in insertion order, and an
    assignment to a key already present keeps that key's position. *)
Module PyDict.
Section Dict.
Context {V : Type}.

(** [d.get(k)] *)
Fixpoint get (k : string) (d : list (string * V)) : option V :=
  match d with
  | [] => None
  | (k', v) :: d' => if decide (k = k') then Some v else get k d'
  end.

(** [k in d] *)
Definition contains (k : string) (d : list (string * V)) : bool :=
  match get k d with Some _ => true | None => false end.

(** [d[k] = v] *)
Fixpoint set (k : string) (v : V) (d : list (string * V)) : list (string * V) :=
  match d with
  | [] => [(k, v)]
  | (k', v') :: d' =>
      if decide (k = k') then (k, v) :: d' else (k', v') :: set k v d'
  end.

(** [del d[k]] *)
Fixpoint del (k : string) (d : list (string * V)) : list (string * V) :=
  match d with
  | [] => []
  | (k', v') :: d' =>
      if decide (k = k') then d' else (k', v') :: del k d'
  end.

(** [d.keys()] and [d.values()] *)
Definition keys (d : list (string * V)) : list string := d.*1.
Definition values (d : list (string * V)) : list V := d.*2.
End Dict.
End PyDict.

(** ** Values and records *)

(** The values [create_mesh] puts in a mesh's [metadata] dict: strings, the
    integer version, [datetime] readings (as a number of clock ticks) and the
    [uuid4()] result. *)
Inductive meta_val :=
  | MStr (s : string)
  | MInt (n : Z)
  | MDatetime (t : Z)
  | MUuid (u : N).

(** The [status] field.  The dataclass declares it as a dict with the single
    key ["status"]; [create_mesh] stores the plain string ["ACTIVE"].  Both
    shapes are kept apart, since they behave differently under item
    assignment. *)
Inductive status_val :=
  | StatusStr (s : string)
  | StatusDict (d : gmap string string).

(** The [spec] argument of a request, as decoded from JSON. *)
Abbreviation request_spec := (gmap string (gmap string string)).

Record Mesh := mkMesh {
  mesh_name : string;
  metadata : gmap string meta_val;
  spec : gmap string (option (gmap string (option string)));
  status : status_val;
  tags : option (list (gmap string string));
}.

Definition set_metadata (f : gmap string meta_val → gmap string meta_val)
    (m : Mesh) : Mesh :=
  mkMesh (mesh_name m) (f (metadata m)) (spec m) (status m) (tags m).

Definition set_spec
    (f : gmap string (option (gmap string (option string))) →
         gmap string (option (gmap string (option string))))
    (m : Mesh) : Mesh :=
  mkMesh (mesh_name m) (metadata m) (f (spec m)) (status m) (tags m).

Definition set_status (st : status_val) (m : Mesh) : Mesh :=
  mkMesh (mesh_name m) (metadata m) (spec m) st (tags m).

(** Exceptions.  [MeshNotFoundError] is the backend's own; the others are
    the interpreter's; [InvalidToken] and [ValidationError] belong to the
    paginator. *)
Inductive exn :=
  | MeshNotFoundError (name : string)
  | TypeError
  | AttributeError
  | KeyError (k : string)
  | InvalidToken
  | ValidationError.

(** The backend object: region, account and the dict of meshes. *)
Record AppMeshBackend := mkBackend {
  region_name : string;
  account_id : string;
  meshes : list (string * Mesh);
}.

Definition set_meshes (f : list (string * Mesh) → list (string * Mesh))
    (b : AppMeshBackend) : AppMeshBackend :=
  mkBackend (region_name b) (account_id b) (f (meshes b)).

(** [AppMeshBackend.__init__] *)
Definition init (region account : string) : AppMeshBackend :=
  mkBackend region account [].

(** What a call reads from outside the backend: the caller identity answered
    by the STS backend, the clock ([datetime.now()]) and the fresh
    [uuid4()]. *)
Record env := mkEnv {
  user_id : string;
  now : Z;
  uuid : N;
}.

(** ** Computations: state and exceptions *)

Definition M (A : Type) : Type := AppMeshBackend → AppMeshBackend * (exn + A).

Definition ret {A} (a : A) : M A := fun b => (b, inr a).

Definition raise {A} (e : exn) : M A := fun b => (b, inl e).

Definition bind {A B} (k : A → M B) (c : M A) : M B :=
  fun b =>
    match c b with
    | (b', inr a) => k a b'
    | (b', inl e) => (b', inl e)
    end.

Definition lift {A} (r : exn + A) : M A := fun b => (b, r).

#[global] Instance M_ret : MRet M := @ret.
#[global] Instance M_bind : MBind M := @bind.
#[global] Instance M_fmap : FMap M :=
  fun A B (f : A → B) (c : M A) => bind (fun a => ret (f a)) c.

(** [self.meshes[name]], read *)
Definition getitem (name : string) : M Mesh :=
  fun b =>
    match PyDict.get name (meshes b) with
    | Some m => (b, inr m)
    | None => (b, inl (KeyError name))
    end.

(** [self.meshes[name] = m] *)
Definition setitem (name : string) (m : Mesh) : M unit :=
  fun b => (set_meshes (PyDict.set name m) b, inr tt).

(** [del self.meshes[name]] *)
Definition delitem (name : string) : M unit :=
  fun b =>
    if PyDict.contains name (meshes b)
    then (set_meshes (PyDict.del name) b, inr tt)
    else (b, inl (KeyError name)).

(** A write through the reference [self.meshes[name]]: the object stored
    under [name] is changed in place. *)
Definition mutate (name : string) (f : Mesh → exn + Mesh) : M unit :=
  m ← getitem name;
  m' ← lift (f m);
  setitem name m'.

(** ** Small pieces of Python *)

(** Truth value of an optional dict: [None] and [{}] are false. *)
Definition truthy (sp : option request_spec) : bool :=
  match sp with
  | None => false
  | Some d => negb (bool_decide (d = ∅))
  end.

(** [x or {}] for an optional dict of strings *)
Definition or_empty (x : option (gmap string string)) : gmap string string :=
  match x with
  | None => ∅
  | Some d => if bool_decide (d = ∅) then ∅ else d
  end.

(** The value stored under ["egress_filter"]: [spec.get("egressFilter")] *)
Definition egress_filter_of (sp : request_spec)
    : option (gmap string (option string)) :=
  match sp !! "egressFilter" with
  | Some d => Some (Some <$> d)
  | None => None
  end.

(** The value stored under ["service_discovery"]:
    [{"ip_preference": (spec.get("serviceDiscovery") or {}).get("ipPreference")}] *)
Definition service_discovery_of (sp : request_spec)
    : option (gmap string (option string)) :=
  Some {[ "ip_preference" := or_empty (sp !! "serviceDiscovery") !! "ipPreference" ]}.

(** [x += 1] on a metadata value *)
Definition add_one (v : meta_val) : exn + meta_val :=
  match v with
  | MInt n => inr (MInt (n + 1))
  | _ => inl TypeError
  end.

(** [status["status"] = v]: a [str] does not support item assignment. *)
Definition status_setitem (st : status_val) (k v : string) : exn + status_val :=
  match st with
  | StatusStr _ => inl TypeError
  | StatusDict d => inr (StatusDict (<[k := v]> d))
  end.

(** [mesh.copy()]: the [Mesh] dataclass defines [to_dict] only, so the
    attribute lookup fails. *)
Definition Mesh_copy (m : Mesh) : exn + Mesh := inl AttributeError.

(** ** The methods of [AppMeshBackend] *)

Definition arn_of (b : AppMeshBackend) (name : string) : string :=
  "arn:aws:appmesh:" +:+ region_name b +:+ ":" +:+ account_id b +:+ ":" +:+ name.

(** The record built by the [Mesh(...)] expression of [create_mesh]. *)
Definition new_mesh (e : env) (b : AppMeshBackend) (name : string)
    (sp : request_spec) (tgs : option (list (gmap string string))) : Mesh :=
  {| mesh_name := name;
     spec := {[ "egress_filter" := egress_filter_of sp;
                "service_discovery" := service_discovery_of sp ]};
     status := StatusStr "ACTIVE";
     metadata := {[ "arn" := MStr (arn_of b name);
                    "created_at" := MDatetime (now e);
                    "last_updated_at" := MDatetime (now e);
                    "mesh_owner" := MStr (user_id e);
                    "uid" := MUuid (uuid e);
                    "version" := MInt 1 ]};
     tags := tgs |}.

(** The dispatcher passes [params.get("spec")], which is [None] when the
    request carries no spec; [spec.get] then fails on [None]. *)
Definition create_mesh (e : env) (client_token : option string)
    (name : string) (sp : option request_spec)
    (tgs : option (list (gmap string string))) : M Mesh :=
  fun b =>
    match sp with
    | None => raise AttributeError b
    | Some d =>
        let mesh := new_mesh e b name d tgs in
        (setitem name mesh;; mret mesh) b
    end.

Definition update_mesh (e : env) (client_token : option string)
    (name : string) (sp : option request_spec) : M Mesh :=
  fun b =>
    if negb (PyDict.contains name (meshes b)) then raise (MeshNotFoundError name) b
    else
      ((match sp with
        | Some d =>
            if truthy sp then
              mutate name (fun m =>
                inr (set_spec (insert "egress_filter" (egress_filter_of d)) m));;
              mutate name (fun m =>
                inr (set_spec (insert "service_discovery" (service_discovery_of d)) m));;
              mutate name (fun m =>
                inr (set_metadata (insert "last_updated_at" (MDatetime (now e))) m));;
              mutate name (fun m =>
                match metadata m !! "version" with
                | None => inl (KeyError "version")
                | Some v =>
                    match add_one v with
                    | inr v' => inr (set_metadata (insert "version" v') m)
                    | inl x => inl x
                    end
                end)
            else mret tt
        | None => mret tt
        end);;
       getitem name) b.

Definition describe_mesh (name : string) (mesh_owner : option string) : M Mesh :=
  fun b =>
    if negb (PyDict.contains name (meshes b)) then raise (MeshNotFoundError name) b
    else getitem name b.

Definition delete_mesh (name : string) : M Mesh :=
  fun b =>
    if negb (PyDict.contains name (meshes b)) then raise (MeshNotFoundError name) b
    else
      (mutate name (fun m =>
         match status_setitem (status m) "status" "DELETED" with
         | inr st => inr (set_status st m)
         | inl x => inl x
         end);;
       m ← getitem name;
       mesh ← lift (Mesh_copy m);
       delitem name;;
       mret mesh) b.

(** ** Pagination *)

(** One entry of [PAGINATION_MODEL]. *)
Record pagination_config := mkPagination {
  input_token : string;
  limit_key : string;
  limit_default : Z;
  unique_attribute : string;
}.

Definition PAGINATION_MODEL : gmap string pagination_config :=
  {[ "list_meshes" := mkPagination "next_token" "max_results" 100 "mesh_name";
     "list_tags_for_resource" := mkPagination "next_token" "limit" 100 "resource_arn" ]}.

Section Paginate.
Context {A : Type} (attr : A → string).

(** Modelled from the spec: the position a token stands for.  The result
    holds the items that follow the first item whose unique attribute is
    [t]; it is [None] when no item carries [t]. *)
Fixpoint after_token (t : string) (l : list A) : option (list A) :=
  match l with
  | [] => None
  | x :: l' => if decide (attr x = t) then Some l' else after_token t l'
  end.

(** Modelled from the spec: the [paginate] decorator that wraps
    [list_meshes] is imported from a module that is not among the sources.
    The page keeps the collection's iteration order.  The token is the
    unique attribute of the last item returned and the next page starts
    right after that item; no token starts at the beginning; a token that
    matches no item raises [InvalidToken].  An absent limit is replaced by
    the configured default, a limit of zero or less raises
    [ValidationError].  The page that reaches the end of the collection is
    the last one and comes with no token. *)
Definition paginate (default_limit : Z) (collection : list A)
    (token : option string) (limit : option Z)
    : exn + (list A * option string) :=
  let l := default default_limit limit in
  if decide (l ≤ 0)%Z then inl ValidationError
  else
    match (match token with
           | None => Some collection
           | Some t => after_token t collection
           end) with
    | None => inl InvalidToken
    | Some rest =>
        if decide (length rest ≤ Z.to_nat l)%nat then inr (rest, None)
        else
          let page := take (Z.to_nat l) rest in
          inr (page, attr <$> last page)
    end.

(** A listing of [collection] stands right before [rest]: what came
    before ends with the item the token names, or nothing came before and
    there is no token. *)
Definition resumes (collection : list A) (token : option string)
    (rest : list A) : Prop :=
  ∃ pre, collection = (pre ++ rest)%list ∧ token = attr <$> last pre.
End Paginate.

(** [list_meshes] hands [self.meshes.values()] to the paginator, configured
    by the ["list_meshes"] entry of [PAGINATION_MODEL]: default limit 100,
    unique attribute [mesh_name]. *)
Definition list_meshes (limit : option Z) (next_token : option string)
    : M (list Mesh * option string) :=
  fun b =>
    match PAGINATION_MODEL !! "list_meshes" with
    | Some cfg =>
        (b, paginate mesh_name (limit_default cfg)
              (PyDict.values (meshes b)) next_token limit)
    | None => (b, inl (KeyError "list_meshes"))
    end.

(** A client that lists everything: it starts with the given token and
    feeds each returned token to the next call until a response comes
    without one.  The responses are returned in the order received. *)
Fixpoint list_all_meshes (fuel : nat) (limit : option Z)
    (token : option string) (b : AppMeshBackend)
    : option (list (list Mesh * option string)) :=
  match fuel with
  | O => None
  | S fuel' =>
      match list_meshes limit token b with
      | (b', inr (page, Some t)) =>
          cons (page, Some t) <$> list_all_meshes fuel' limit (Some t) b'
      | (_, inr (page, None)) => Some [(page, None)]
      | (_, inl _) => None
      end
  end.

(** ** Calls and reachable states *)

Inductive call :=
  | CreateMesh (e : env) (client_token : option string) (name : string)
      (sp : option request_spec) (tgs : option (list (gmap string string)))
  | UpdateMesh (e : env) (client_token : option string) (name : string)
      (sp : option request_spec)
  | DescribeMesh (name : string) (mesh_owner : option string)
  | DeleteMesh (name : string)
  | ListMeshes (limit : option Z) (next_token : option string).

Inductive result :=
  | RMesh (m : Mesh)
  | RPage (page : list Mesh) (next_token : option string).

Definition run (c : call) : M result :=
  match c with
  | CreateMesh e tok name sp tgs => RMesh <$> create_mesh e tok name sp tgs
  | UpdateMesh e tok name sp => RMesh <$> update_mesh e tok name sp
  | DescribeMesh name owner => RMesh <$> describe_mesh name owner
  | DeleteMesh name => RMesh <$> delete_mesh name
  | ListMeshes limit token =>
      (fun r => RPage r.1 r.2) <$> list_meshes limit token
  end.

(** The states a backend goes through: a fresh backend, then any sequence of
    calls, failed ones included. *)
Inductive reachable : AppMeshBackend → Prop :=
  | reachable_init region account : reachable (init region account)
  | reachable_run b c : reachable b → reachable (run c b).1.

(** The name a status carries, whichever its shape. *)
Definition status_name (st : status_val) : option string :=
  match st with
  | StatusStr s => Some s
  | StatusDict d => d !! "status"
  end.

(** What holds of every record [create_mesh] builds and [update_mesh]
    rewrites. *)
Definition mesh_ok (name : string) (m : Mesh) : Prop :=
  mesh_name m = name ∧ status m = StatusStr "ACTIVE" ∧
  ∃ v t, metadata m !! "version" = Some (MInt v) ∧ (1 ≤ v)%Z ∧
         metadata m !! "last_updated_at" = Some (MDatetime t).

Definition well_formed (b : AppMeshBackend) : Prop :=
  NoDup (PyDict.keys (meshes b)) ∧
  Forall (fun km => mesh_ok km.1 km.2) (meshes b).

(** ** Sample data *)

Definition env0 : env := mkEnv "AIDAEXAMPLEUSER" 1000 1%N.
Definition env1 : env := mkEnv "AIDAEXAMPLEUSER" 2000 2%N.

Definition spec_full : request_spec :=
  {[ "egressFilter" := {[ "type" := "ALLOW_ALL" ]};
     "serviceDiscovery" := {[ "ipPreference" := "IPv4_ONLY" ]} ]}.

Definition spec_egress_only : request_spec :=
  {[ "egressFilter" := {[ "type" := "DROP_ALL" ]} ]}.

(** A fresh backend after [create_mesh] of ["m1"]. *)
Definition backend_m1 : AppMeshBackend :=
  (create_mesh env0 None "m1" (Some spec_full) None
     (init "us-east-1" "123456789012")).1.

(** Five meshes, created one after the other. *)
Definition backend_5 : AppMeshBackend :=
  foldl (fun b name => (create_mesh env0 None name (Some spec_full) None b).1)
    (init "us-east-1" "123456789012") ["a"; "b"; "c"; "d"; "e"].

(** ** Shapes and runs *)

(** What [create_mesh] writes into a record and [update_mesh] keeps: the
    name, the ARN built from the backend's region and account, the six
    metadata entries with their kinds of value, the two spec entries and the
    status. *)
Definition record_shape (b : AppMeshBackend) (name : string) (m : Mesh) : Prop :=
  mesh_name m = name ∧
  dom (metadata m)
  = ({[ "arn"; "created_at"; "last_updated_at"; "mesh_owner"; "uid"; "version" ]}
       : gset string) ∧
  metadata m !! "arn" = Some (MStr (arn_of b name)) ∧
  (∃ t, metadata m !! "created_at" = Some (MDatetime t)) ∧
  (∃ t, metadata m !! "last_updated_at" = Some (MDatetime t)) ∧
  (∃ s, metadata m !! "mesh_owner" = Some (MStr s)) ∧
  (∃ u, metadata m !! "uid" = Some (MUuid u)) ∧
  (∃ v, metadata m !! "version" = Some (MInt v) ∧ (1 ≤ v)%Z) ∧
  dom (spec m) = ({[ "egress_filter"; "service_discovery" ]} : gset string) ∧
  (∃ ip, spec m !! "service_discovery" = Some (Some {[ "ip_preference" := ip ]})) ∧
  status m = StatusStr "ACTIVE".

Definition shaped (b : AppMeshBackend) : Prop :=
  Forall (fun km => record_shape b km.1 km.2) (meshes b).

(** [b'] is [b] with the same region and account, the same names in the
    same order, and possibly more names after them. *)
Definition grows (b b' : AppMeshBackend) : Prop :=
  region_name b' = region_name b ∧ account_id b' = account_id b ∧
  PyDict.keys (meshes b) `prefix_of` PyDict.keys (meshes b').

(** A series of [update_mesh] calls on one mesh, each with its own clock
    reading and its own spec. *)
Definition update_all (name : string) (us : list (env * request_spec))
    (b : AppMeshBackend) : AppMeshBackend :=
  foldl (fun b u => (update_mesh u.1 None name (Some u.2) b).1) b us.

(** ** The two-state lifecycle *)




(** The record of [backend_m1] with its status in the shape the dataclass
    declares, [{"status": "ACTIVE"}], and a backend that holds it. *)
Definition mesh_dict_status : Mesh :=
  set_status (StatusDict {[ "status" := "ACTIVE" ]})
    (new_mesh env0 (init "us-east-1" "123456789012") "m1" spec_full None).

Definition backend_dict : AppMeshBackend :=
  mkBackend "us-east-1" "123456789012" [("m1", mesh_dict_status)].

(** ** Python values, [Mesh.to_dict] and the handlers of [AppMeshResponse] *)

(** Python values as they come out of [json.loads] and go into
    [json.dumps]: [None], booleans, integers, strings, lists and dicts with
    string keys, and the two kinds of object a mesh record holds besides
    them, [datetime] and [UUID]. *)
Inductive pyval :=
  | PNone
  | PBool (b : bool)
  | PInt (n : Z)
  | PStr (s : string)
  | PDatetime (t : Z)
  | PUuid (u : N)
  | PList (l : list pyval)
  | PDict (d : gmap string pyval).

Definition meta_to_py (v : meta_val) : pyval :=
  match v with
  | MStr s => PStr s
  | MInt n => PInt n
  | MDatetime t => PDatetime t
  | MUuid u => PUuid u
  end.

(** [self.metadata.get(k)] *)
Definition metadata_get (m : Mesh) (k : string) : pyval :=
  match metadata m !! k with
  | Some v => meta_to_py v
  | None => PNone
  end.

Definition opt_str_to_py (o : option string) : pyval :=
  match o with
  | Some s => PStr s
  | None => PNone
  end.

(** [self.spec.get("egress_filter")] *)
Definition egress_filter_get (m : Mesh) : pyval :=
  match spec m !! "egress_filter" with
  | Some (Some d) => PDict (opt_str_to_py <$> d)
  | _ => PNone
  end.

(** [self.spec.get("service_discovery") or {}] *)
Definition service_discovery_get (m : Mesh) : gmap string (option string) :=
  match spec m !! "service_discovery" with
  | Some (Some d) => if bool_decide (d = ∅) then ∅ else d
  | _ => ∅
  end.

(** [service_discovery.get("ip_preference")] *)
Definition ip_preference_get (m : Mesh) : pyval :=
  match service_discovery_get m !! "ip_preference" with
  | Some o => opt_str_to_py o
  | None => PNone
  end.

Definition status_to_py (st : status_val) : pyval :=
  match st with
  | StatusStr s => PStr s
  | StatusDict d => PDict (PStr <$> d)
  end.

(** [Mesh.to_dict] *)
Definition to_dict (m : Mesh) : pyval :=
  PDict
    {[ "meshName" := PStr (mesh_name m);
       "metadata" :=
         PDict {[ "arn" := metadata_get m "arn";
                  "createdAt" := metadata_get m "created_at";
                  "lastUpdatedAt" := metadata_get m "last_updated_at";
                  "meshOwner" := metadata_get m "mesh_owner";
                  "resourceOwner" := metadata_get m "resource_owner";
                  "uid" := metadata_get m "uid";
                  "version" := metadata_get m "version" ]};
       "spec" :=
         PDict {[ "egressFilter" := egress_filter_get m;
                  "serviceDiscovery" :=
                    PDict {[ "ipPreference" := ip_preference_get m ]} ]};
       "status" := status_to_py (status m) ]}.

(** [v[k]] on a value that is a dict holding [k] *)
Definition item (v : pyval) (k : string) : option pyval :=
  match v with
  | PDict d => d !! k
  | _ => None
  end.

(** What the default encoder of [json.dumps] accepts: it has no case for
    [datetime] and [UUID] objects. *)
Fixpoint json_serializable (v : pyval) : bool :=
  match v with
  | PDatetime _ | PUuid _ => false
  | PList l => forallb json_serializable l
  | PDict d => map_fold (fun _ x acc => json_serializable x && acc) true d
  | _ => true
  end.

(** [json.dumps(v)]: [TypeError] on a value the encoder does not accept.
    The text returned is stood for by the value it encodes. *)
Definition json_dumps (v : pyval) : exn + pyval :=
  if json_serializable v then inr v else inl TypeError.

(** The handlers of [AppMeshResponse] that return a mesh.  Each takes the
    values it reads from the decoded request ([params.get(...)]), calls the
    backend method and encodes [to_dict] of the record. *)
Module AppMeshResponse.

Definition create_mesh (e : env) (client_token : option string)
    (mesh_name : string) (sp : option request_spec)
    (tgs : option (list (gmap string string))) : M pyval :=
  mesh ← create_mesh e client_token mesh_name sp tgs;
  lift (json_dumps (PDict {[ "mesh" := to_dict mesh ]})).

Definition update_mesh (e : env) (client_token : option string)
    (mesh_name : string) (sp : option request_spec) : M pyval :=
  mesh ← update_mesh e client_token mesh_name sp;
  lift (json_dumps (PDict {[ "mesh" := to_dict mesh ]})).

Definition describe_mesh (mesh_name : string) (mesh_owner : option string)
    : M pyval :=
  mesh ← describe_mesh mesh_name mesh_owner;
  lift (json_dumps (to_dict mesh)).

Definition delete_mesh (mesh_name : string) : M pyval :=
  mesh ← delete_mesh mesh_name;
  lift (json_dumps (PDict {[ "mesh" := to_dict mesh ]})).

End AppMeshResponse.

(** ** The argument translation of [TransferResponse]

    [create_user] and [create_server] rebuild the nested blocks of the
    decoded request under the backend's own field names before they call
    the backend.  The backend itself is not part of the sources, so what is
    embedded is the computation of the keyword arguments.  Numbers of a
    request are taken as integers. *)
Module TransferResponse.

Definition and_then {A B} (r : exn + A) (k : A → exn + B) : exn + B :=
  match r with
  | inl x => inl x
  | inr a => k a
  end.

(** A list comprehension whose body may raise: the first failure ends it. *)
Fixpoint try_map {A B} (f : A → exn + B) (l : list A) : exn + list B :=
  match l with
  | [] => inr []
  | x :: l' =>
      and_then (f x) (fun y =>
      and_then (try_map f l') (fun ys => inr (y :: ys)))
  end.

(** [d.get(k)] on a dict *)
Definition get (d : gmap string pyval) (k : string) : pyval :=
  default PNone (d !! k).

(** [v.get(k)] on any value: only a dict has [get]. *)
Definition py_get (v : pyval) (k : string) : exn + pyval :=
  match v with
  | PDict d => inr (get d k)
  | _ => inl AttributeError
  end.

(** [len(v)] *)
Definition py_len (v : pyval) : exn + nat :=
  match v with
  | PList l => inr (length l)
  | PDict d => inr (size d)
  | PStr s => inr (String.length s)
  | _ => inl TypeError
  end.

(** The characters of a string, each a string of its own *)
Fixpoint chars (s : string) : list pyval :=
  match s with
  | EmptyString => []
  | String c s' => PStr (String c EmptyString) :: chars s'
  end.

(** The items of [for x in v]: the elements of a list, the keys of a dict,
    the characters of a string. *)
Definition py_iter (v : pyval) : exn + list pyval :=
  match v with
  | PList l => inr l
  | PDict d => inr ((fun kx => PStr kx.1) <$> map_to_list d)
  | PStr s => inr (chars s)
  | _ => inl TypeError
  end.

(** Truth value *)
Definition py_truthy (v : pyval) : bool :=
  match v with
  | PNone => false
  | PBool b => b
  | PInt n => negb (n =? 0)%Z
  | PStr s => match s with EmptyString => false | _ => true end
  | PList l => match l with [] => false | _ => true end
  | PDict d => negb (bool_decide (d = ∅))
  | PDatetime _ | PUuid _ => true
  end.

(** A dict display [{"a": v.get("A"), "b": v.get("B"), ...}], given as the
    list of its pairs of backend name and request name. *)
Fixpoint pick (fields : list (string * string)) (v : pyval)
    : exn + gmap string pyval :=
  match fields with
  | [] => inr ∅
  | (internal, external) :: fields' =>
      and_then (py_get v external) (fun x =>
      and_then (pick fields' v) (fun d => inr (<[internal := x]> d)))
  end.

Definition translated (fields : list (string * string)) (v : pyval)
    : exn + pyval :=
  and_then (pick fields v) (fun d => inr (PDict d)).

Definition home_directory_mapping_fields : list (string * string) :=
  [("entry", "Entry"); ("target", "Target"); ("type", "Type")].

Definition posix_profile_fields : list (string * string) :=
  [("gid", "Gid"); ("uid", "Uid"); ("secondary_gids", "SecondaryGids")].

Definition endpoint_details_fields : list (string * string) :=
  [("address_allocation_ids", "AddressAllocationIds");
   ("subnet_ids", "SubnetIds");
   ("vpc_endpoint_id", "VpcEndpointId");
   ("vpc_id", "VpcId");
   ("security_group_ids", "SecurityGroupIds")].

Definition identity_provider_details_fields : list (string * string) :=
  [("url", "Url");
   ("invocation_role", "InvocationRole");
   ("directory_id", "DirectoryId");
   ("function", "Function");
   ("sftp_authentication_methods", "SftpAuthenticationMethods")].

Definition protocol_details_fields : list (string * string) :=
  [("passive_ip", "PassiveIp");
   ("tls_session_resumption_mode", "TlsSessionResumptionMode");
   ("set_stat_option", "SetStatOption");
   ("as2_transports", "As2Transports")].

Definition s3_storage_options_fields : list (string * string) :=
  [("directory_listing_optimization", "DirectoryListingOptimization")].

Definition workflow_fields : list (string * string) :=
  [("workflow_id", "WorkflowId"); ("execution_role", "ExecutionRole")].

(** [home_directory_mappings] of [create_user]: rebuilt only when it is not
    [None] and its length is positive. *)
Definition home_directory_mappings (params : gmap string pyval) : exn + pyval :=
  let v := get params "HomeDirectoryMappings" in
  match v with
  | PNone => inr v
  | _ =>
      and_then (py_len v) (fun n =>
      if decide (0 < n)%nat then
        and_then (py_iter v) (fun items =>
        and_then (try_map (translated home_directory_mapping_fields) items)
          (fun l => inr (PList l)))
      else inr v)
  end.

(** A block that is rebuilt whenever it is not [None]. *)
Definition block (key : string) (fields : list (string * string))
    (params : gmap string pyval) : exn + pyval :=
  let v := get params key in
  match v with
  | PNone => inr v
  | _ => translated fields v
  end.

Definition posix_profile := block "PosixProfile" posix_profile_fields.

(** The keyword arguments of [self.transfer_backend.create_user(...)] *)
Definition create_user_arguments (params : gmap string pyval)
    : exn + gmap string pyval :=
  and_then (home_directory_mappings params) (fun mappings =>
  and_then (posix_profile params) (fun profile =>
  inr {[ "home_directory" := get params "HomeDirectory";
         "home_directory_type" := get params "HomeDirectoryType";
         "home_directory_mappings" := mappings;
         "policy" := get params "Policy";
         "posix_profile" := profile;
         "role" := get params "Role";
         "server_id" := get params "ServerId";
         "ssh_public_key_body" := get params "SshPublicKeyBody";
         "tags" := get params "Tags";
         "user_name" := get params "UserName" ]})).

Definition endpoint_details := block "EndpointDetails" endpoint_details_fields.
Definition identity_provider_details :=
  block "IdentityProviderDetails" identity_provider_details_fields.
Definition protocol_details := block "ProtocolDetails" protocol_details_fields.
Definition s3_storage_options :=
  block "S3StorageOptions" s3_storage_options_fields.

(** [[{...} for workflow in (v or [])]] *)
Definition workflows (v : pyval) : exn + pyval :=
  and_then (py_iter (if py_truthy v then v else PList [])) (fun items =>
  and_then (try_map (translated workflow_fields) items) (fun l =>
  inr (PList l))).

Definition workflow_details (params : gmap string pyval) : exn + pyval :=
  let v := get params "WorkflowDetails" in
  match v with
  | PNone => inr v
  | _ =>
      and_then (py_get v "OnUpload") (fun up =>
      and_then (workflows up) (fun on_upload =>
      and_then (py_get v "OnPartialUpload") (fun partial =>
      and_then (workflows partial) (fun on_partial_upload =>
      inr (PDict {[ "on_upload" := on_upload;
                    "on_partial_upload" := on_partial_upload ]})))))
  end.

(** The keyword arguments of [self.transfer_backend.create_server(...)] *)
Definition create_server_arguments (params : gmap string pyval)
    : exn + gmap string pyval :=
  and_then (endpoint_details params) (fun endpoint =>
  and_then (identity_provider_details params) (fun identity =>
  and_then (protocol_details params) (fun protocol =>
  and_then (s3_storage_options params) (fun storage =>
  and_then (workflow_details params) (fun workflow =>
  inr (list_to_map
         [("certificate", get params "Certificate");
          ("domain", get params "Domain");
          ("endpoint_details", endpoint);
          ("endpoint_type", get params "EndpointType");
          ("host_key", get params "HostKey");
          ("identity_provider_details", identity);
          ("identity_provider_type", get params "IdentityProviderType");
          ("logging_role", get params "LoggingRole");
          ("post_authentication_login_banner",
           get params "PostAuthenticationLoginBanner");
          ("pre_authentication_login_banner",
           get params "PreAuthenticationLoginBanner");
          ("protocols", get params "Protocols");
          ("protocol_details", protocol);
          ("security_policy_name", get params "SecurityPolicyName");
          ("structured_log_destinations",
           get params "StructuredLogDestinations");
          ("s3_storage_options", storage);
          ("tags", get params "Tags");
          ("workflow_details", workflow)])))))).

Definition is_dict (v : pyval) : Prop := ∃ d, v = PDict d.

(** A home directory mapping, a workflow and a request body for the
    examples. *)
Definition mapping_1 : gmap string pyval :=
  {[ "Entry" := PStr "/"; "Target" := PStr "/bucket/home"; "Extra" := PInt 1 ]}.
Definition mapping_2 : gmap string pyval := {[ "Entry" := PStr "/tmp" ]}.
Definition user_params : gmap string pyval :=
  {[ "UserName" := PStr "alice";
     "HomeDirectoryMappings" := PList [PDict mapping_1; PDict mapping_2] ]}.

End TransferResponse.

(** The names on a page, with the token that came with it. *)
Definition response_names (r : list Mesh * option string)
    : list string * option string :=
  (map mesh_name r.1, r.2).

(** * Facts *)

(** ** Ordered dictionaries *)
Section PyDictFacts.
Context {V : Type}.
Implicit Types (d : list (string * V)) (k : string) (v : V).

Lemma get_set_eq k v d : PyDict.get k (PyDict.set k v d) = Some v.
Proof.
  induction d as [|[k' v'] d IH]; simpl.
  - by rewrite decide_True.
  - destruct (decide (k = k')) as [->|Hne]; simpl.
    + by rewrite decide_True.
    + by rewrite decide_False.
Qed.

Lemma get_set_ne k k' v d :
  k ≠ k' → PyDict.get k' (PyDict.set k v d) = PyDict.get k' d.
Proof.
  intros Hne. induction d as [|[k0 v0] d IH]; simpl.
  - rewrite decide_False; [done | congruence].
  - destruct (decide (k = k0)) as [->|Hk]; simpl.
    + rewrite !decide_False; [done | congruence | congruence].
    + by rewrite IH.
Qed.

Lemma set_set k v v' d :
  PyDict.set k v' (PyDict.set k v d) = PyDict.set k v' d.
Proof.
  induction d as [|[k0 v0] d IH]; simpl.
  - by rewrite decide_True.
  - destruct (decide (k = k0)) as [->|Hk]; simpl.
    + by rewrite decide_True.
    + rewrite decide_False; [|done]. by rewrite IH.
Qed.

Lemma get_elem_of k v d : PyDict.get k d = Some v → (k, v) ∈ d.
Proof.
  induction d as [|[k0 v0] d IH]; simpl; [done|].
  destruct (decide (k = k0)) as [->|Hk].
  - intros [= ->]. left.
  - intros H. right. by apply IH.
Qed.

Lemma get_None_keys k d : PyDict.get k d = None ↔ k ∉ PyDict.keys d.
Proof.
  unfold PyDict.keys. induction d as [|[k0 v0] d IH]; simpl.
  - split; [intros _; apply not_elem_of_nil | done].
  - rewrite not_elem_of_cons. destruct (decide (k = k0)) as [->|Hk].
    + split; [done | intros [? _]; done].
    + rewrite IH. tauto.
Qed.

Lemma keys_set_present k v d :
  is_Some (PyDict.get k d) → PyDict.keys (PyDict.set k v d) = PyDict.keys d.
Proof.
  unfold PyDict.keys. induction d as [|[k0 v0] d IH]; simpl.
  - by intros [? ?].
  - destruct (decide (k = k0)) as [->|Hk]; simpl; [done|].
    intros H. f_equal. by apply IH.
Qed.

Lemma keys_set_absent k v d :
  PyDict.get k d = None →
  PyDict.keys (PyDict.set k v d) = (PyDict.keys d ++ [k])%list.
Proof.
  unfold PyDict.keys. induction d as [|[k0 v0] d IH]; simpl; [done|].
  destruct (decide (k = k0)) as [->|Hk]; simpl; [done|].
  intros H. f_equal. by apply IH.
Qed.

Lemma NoDup_keys_set k v d :
  NoDup (PyDict.keys d) → NoDup (PyDict.keys (PyDict.set k v d)).
Proof.
  intros Hnd. destruct (PyDict.get k d) as [v0|] eqn:Hget.
  - by rewrite keys_set_present.
  - rewrite keys_set_absent by done.
    apply NoDup_app. split_and!; [done | | apply NoDup_singleton].
    intros x Hx ->%list_elem_of_singleton.
    by apply get_None_keys in Hget.
Qed.

Lemma Forall_set (P : string * V → Prop) k v d :
  Forall P d → P (k, v) → Forall P (PyDict.set k v d).
Proof.
  intros Hd Hkv. induction Hd as [|[k0 v0] d H0 Hd IH]; simpl.
  - by constructor.
  - destruct (decide (k = k0)); by constructor.
Qed.

Lemma contains_get k d :
  PyDict.contains k d = true ↔ is_Some (PyDict.get k d).
Proof.
  unfold PyDict.contains. destruct (PyDict.get k d); split;
    first [done | by eexists | by intros [? ?]].
Qed.
End PyDictFacts.

(** ** What each method computes *)
Section Methods.
Implicit Types (b : AppMeshBackend) (m : Mesh) (name : string).

Lemma bind_ok {A B} (c : M A) (k : A → M B) b b' a :
  c b = (b', inr a) → (c ≫= k) b = k a b'.
Proof. intros H. unfold mbind, M_bind, bind. by rewrite H. Qed.

Lemma bind_raise {A B} (c : M A) (k : A → M B) b b' x :
  c b = (b', inl x) → (c ≫= k) b = (b', inl x).
Proof. intros H. unfold mbind, M_bind, bind. by rewrite H. Qed.

Lemma fmap_ok {A B} (f : A → B) (c : M A) b b' a :
  c b = (b', inr a) → (f <$> c) b = (b', inr (f a)).
Proof. intros H. unfold fmap, M_fmap, bind. by rewrite H. Qed.

Lemma fmap_raise {A B} (f : A → B) (c : M A) b b' x :
  c b = (b', inl x) → (f <$> c) b = (b', inl x).
Proof. intros H. unfold fmap, M_fmap, bind. by rewrite H. Qed.

Lemma getitem_ok name m b :
  PyDict.get name (meshes b) = Some m → getitem name b = (b, inr m).
Proof. intros H. unfold getitem. by rewrite H. Qed.

Lemma mutate_ok name (f : Mesh → exn + Mesh) m m' b :
  PyDict.get name (meshes b) = Some m → f m = inr m' →
  mutate name f b = (set_meshes (PyDict.set name m') b, inr tt).
Proof.
  intros Hget Hf. unfold mutate.
  rewrite (bind_ok _ _ b b m) by by apply getitem_ok.
  rewrite (bind_ok _ _ b b m') by (unfold lift; by rewrite Hf).
  done.
Qed.

Lemma mutate_raise name (f : Mesh → exn + Mesh) m x b :
  PyDict.get name (meshes b) = Some m → f m = inl x →
  mutate name f b = (b, inl x).
Proof.
  intros Hget Hf. unfold mutate.
  rewrite (bind_ok _ _ b b m) by by apply getitem_ok.
  apply bind_raise. unfold lift. by rewrite Hf.
Qed.

Lemma get_set_meshes name m b :
  PyDict.get name (meshes (set_meshes (PyDict.set name m) b)) = Some m.
Proof. apply get_set_eq. Qed.

Lemma set_meshes_twice name m m' b :
  set_meshes (PyDict.set name m') (set_meshes (PyDict.set name m) b)
  = set_meshes (PyDict.set name m') b.
Proof. unfold set_meshes; simpl. by rewrite set_set. Qed.

(** [create_mesh] with a dict for [spec] stores the new record under the
    name, whatever was there, and returns it. *)
Lemma create_mesh_ok e tok name d tgs b :
  create_mesh e tok name (Some d) tgs b
  = (set_meshes (PyDict.set name (new_mesh e b name d tgs)) b,
     inr (new_mesh e b name d tgs)).
Proof. reflexivity. Qed.

Lemma create_mesh_None e tok name tgs b :
  create_mesh e tok name None tgs b = (b, inl AttributeError).
Proof. reflexivity. Qed.

Lemma update_mesh_absent e tok name sp b :
  PyDict.get name (meshes b) = None →
  update_mesh e tok name sp b = (b, inl (MeshNotFoundError name)).
Proof. intros H. unfold update_mesh, PyDict.contains. by rewrite H. Qed.

(** With no spec, or an empty one, the record is returned as it is. *)
Lemma update_mesh_falsy e tok name sp m b :
  PyDict.get name (meshes b) = Some m → truthy sp = false →
  update_mesh e tok name sp b = (b, inr m).
Proof.
  intros Hget Hsp. unfold update_mesh, PyDict.contains. rewrite Hget. simpl.
  destruct sp as [d|]; [rewrite Hsp|];
    (rewrite (bind_ok _ _ b b tt) by done); by apply getitem_ok.
Qed.

(** The record [update_mesh] leaves in the store when the spec is a
    non-empty dict and the version is an integer. *)
Lemma update_mesh_truthy e tok name d m v b :
  PyDict.get name (meshes b) = Some m → d ≠ ∅ →
  metadata m !! "version" = Some (MInt v) →
  let m' :=
    set_metadata (insert "version" (MInt (v + 1)))
      (set_metadata (insert "last_updated_at" (MDatetime (now e)))
         (set_spec (insert "service_discovery" (service_discovery_of d))
            (set_spec (insert "egress_filter" (egress_filter_of d)) m))) in
  update_mesh e tok name (Some d) b
  = (set_meshes (PyDict.set name m') b, inr m').
Proof.
  intros Hget Hd Hv m'. unfold update_mesh, PyDict.contains.
  rewrite Hget. simpl. rewrite bool_decide_eq_false_2 by done. simpl.
  erewrite bind_ok; last first.
  { erewrite bind_ok; [|by eapply mutate_ok].
    erewrite bind_ok; [|eapply mutate_ok; [apply get_set_meshes|done]].
    rewrite set_meshes_twice.
    erewrite bind_ok; [|eapply mutate_ok; [apply get_set_meshes|done]].
    rewrite set_meshes_twice.
    eapply mutate_ok; [apply get_set_meshes|].
    simpl. rewrite lookup_insert_ne by done. rewrite Hv. simpl. done. }
  rewrite set_meshes_twice. apply getitem_ok, get_set_meshes.
Qed.

Lemma describe_mesh_absent name owner b :
  PyDict.get name (meshes b) = None →
  describe_mesh name owner b = (b, inl (MeshNotFoundError name)).
Proof. intros H. unfold describe_mesh, PyDict.contains. by rewrite H. Qed.

Lemma describe_mesh_ok name owner m b :
  PyDict.get name (meshes b) = Some m →
  describe_mesh name owner b = (b, inr m).
Proof.
  intros H. unfold describe_mesh, PyDict.contains. rewrite H. simpl.
  by apply getitem_ok.
Qed.

Lemma delete_mesh_absent name b :
  PyDict.get name (meshes b) = None →
  delete_mesh name b = (b, inl (MeshNotFoundError name)).
Proof. intros H. unfold delete_mesh, PyDict.contains. by rewrite H. Qed.

(** On a record whose status is a string, the item assignment fails and
    nothing has been written. *)
Lemma delete_mesh_str name m s b :
  PyDict.get name (meshes b) = Some m → status m = StatusStr s →
  delete_mesh name b = (b, inl TypeError).
Proof.
  intros Hget Hst. unfold delete_mesh, PyDict.contains. rewrite Hget. simpl.
  apply bind_raise. eapply mutate_raise; [done|]. by rewrite Hst.
Qed.

(** On a record whose status is a dict, the status is written, then
    [copy] fails: the record stays in the store, marked. *)
Lemma delete_mesh_dict name m d b :
  PyDict.get name (meshes b) = Some m → status m = StatusDict d →
  delete_mesh name b
  = (set_meshes
       (PyDict.set name (set_status (StatusDict (<["status" := "DELETED"]> d)) m)) b,
     inl AttributeError).
Proof.
  intros Hget Hst. unfold delete_mesh, PyDict.contains. rewrite Hget. simpl.
  erewrite bind_ok; [|eapply mutate_ok; [done|by rewrite Hst]].
  erewrite bind_ok; [|apply getitem_ok, get_set_meshes].
  by apply bind_raise.
Qed.

(** [delete_mesh] never returns a record. *)
Lemma delete_mesh_raises name b : ∃ x, (delete_mesh name b).2 = inl x.
Proof.
  destruct (PyDict.get name (meshes b)) as [m|] eqn:Hget.
  - destruct (status m) as [s|d] eqn:Hst.
    + erewrite delete_mesh_str by done. by eexists.
    + erewrite delete_mesh_dict by done. by eexists.
  - rewrite delete_mesh_absent by done. by eexists.
Qed.

Lemma list_meshes_state limit token b : (list_meshes limit token b).1 = b.
Proof. reflexivity. Qed.
End Methods.

(** ** The invariant of reachable states *)
Section Invariant.
Implicit Types (b : AppMeshBackend) (m : Mesh) (name : string).

Lemma fmap_state {A B} (f : A → B) (c : M A) b : ((f <$> c) b).1 = (c b).1.
Proof.
  unfold fmap, M_fmap, bind. by destruct (c b) as [b' [x|a]].
Qed.


Lemma mesh_ok_new e b name d tgs : mesh_ok name (new_mesh e b name d tgs).
Proof.
  split_and!; [done..|]. exists 1%Z, (now e). split_and!; [done|lia|done].
Qed.

Lemma well_formed_init region account : well_formed (init region account).
Proof. split; simpl; [apply NoDup_nil_2 | apply Forall_nil_2]. Qed.

Lemma well_formed_set name m b :
  well_formed b → mesh_ok name m →
  well_formed (set_meshes (PyDict.set name m) b).
Proof.
  intros [Hnd Hall] Hm. split; simpl.
  - by apply NoDup_keys_set.
  - by apply Forall_set.
Qed.

Lemma well_formed_get name m b :
  well_formed b → PyDict.get name (meshes b) = Some m → mesh_ok name m.
Proof.
  intros [_ Hall] Hget%get_elem_of.
  rewrite Forall_forall in Hall. by apply (Hall (name, m)).
Qed.

Lemma well_formed_create e tok name sp tgs b :
  well_formed b → well_formed (create_mesh e tok name sp tgs b).1.
Proof.
  intros Hwf. destruct sp as [d|]; [|done].
  rewrite create_mesh_ok. simpl. apply well_formed_set; [done|].
  apply mesh_ok_new.
Qed.

Lemma well_formed_update e tok name sp b :
  well_formed b → well_formed (update_mesh e tok name sp b).1.
Proof.
  intros Hwf. destruct (PyDict.get name (meshes b)) as [m|] eqn:Hget.
  - destruct (truthy sp) eqn:Hsp.
    + destruct sp as [d|]; [|done]. simpl in Hsp.
      apply negb_true_iff, bool_decide_eq_false_1 in Hsp.
      destruct (well_formed_get _ _ _ Hwf Hget) as (Hn & Hst & v & t & Hv & Hv1 & Ht).
      rewrite (update_mesh_truthy e tok name d m v b) by done. simpl.
      apply well_formed_set; [done|].
      split_and!; [done..|]. exists (v + 1)%Z, (now e). simpl.
      split_and!; [by rewrite lookup_insert_eq | lia |].
      rewrite lookup_insert_ne by done. by rewrite lookup_insert_eq.
    + by rewrite (update_mesh_falsy e tok name sp m b).
  - by rewrite update_mesh_absent.
Qed.

Lemma delete_mesh_well_formed name b :
  well_formed b →
  ∃ x, delete_mesh name b = (b, inl x) ∧
       (x = MeshNotFoundError name ∨ x = TypeError).
Proof.
  intros Hwf. destruct (PyDict.get name (meshes b)) as [m|] eqn:Hget.
  - destruct (well_formed_get _ _ _ Hwf Hget) as (_ & Hst & _).
    exists TypeError. split; [|by right]. by eapply delete_mesh_str.
  - exists (MeshNotFoundError name). split; [|by left].
    by apply delete_mesh_absent.
Qed.

Lemma describe_mesh_state name owner b : (describe_mesh name owner b).1 = b.
Proof.
  destruct (PyDict.get name (meshes b)) as [m|] eqn:Hget.
  - by rewrite (describe_mesh_ok name owner m b).
  - by rewrite describe_mesh_absent.
Qed.

Lemma well_formed_run c b : well_formed b → well_formed (run c b).1.
Proof.
  intros Hwf. destruct c; simpl; rewrite fmap_state.
  - by apply well_formed_create.
  - by apply well_formed_update.
  - by rewrite describe_mesh_state.
  - destruct (delete_mesh_well_formed name b Hwf) as (x & -> & _). done.
  - done.
Qed.

Lemma reachable_well_formed b : reachable b → well_formed b.
Proof.
  induction 1 as [region account|b c _ IH].
  - apply well_formed_init.
  - by apply well_formed_run.
Qed.

Lemma reachable_backend_m1 : reachable backend_m1.
Proof.
  apply (reachable_run _
    (CreateMesh env0 None "m1" (Some spec_full) None)), reachable_init.
Qed.
End Invariant.

(** ** Create, describe, update *)

(** C3.  After a [create_mesh] call whose spec is a dict, [describe_mesh]
    with the same name returns a record whose metadata version is 1:
    the record that [create_mesh] returned. *)
Theorem create_then_describe_version_1
    (e : env) (tok : option string) (name : string) (d : request_spec)
    (tgs : option (list (gmap string string))) (owner : option string)
    (b : AppMeshBackend) :
  ∃ m b', create_mesh e tok name (Some d) tgs b = (b', inr m) ∧
          describe_mesh name owner b' = (b', inr m) ∧
          metadata m !! "version" = Some (MInt 1).
Proof.
  eexists _, _. split; [apply create_mesh_ok|]. split; [|done].
  apply describe_mesh_ok, get_set_meshes.
Qed.

(** C10.  The result of [describe_mesh] is the same for any two values of
    [mesh_owner], on every backend state and every name. *)
Theorem describe_mesh_ignores_owner
    (name : string) (owner1 owner2 : option string) (b : AppMeshBackend) :
  describe_mesh name owner1 b = describe_mesh name owner2 b.
Proof. reflexivity. Qed.

(** C4, as stated, fails: [create_mesh] on the name of a stored mesh
    returns a record rather than an error, and the stored record is
    replaced. *)
Lemma create_mesh_existing_counterexample :
  PyDict.contains "m1" (meshes backend_m1) = true ∧
  (∃ m, (create_mesh env1 None "m1" (Some spec_egress_only) None backend_m1).2
        = inr m) ∧
  PyDict.get "m1"
    (meshes (create_mesh env1 None "m1" (Some spec_egress_only) None backend_m1).1)
  ≠ PyDict.get "m1" (meshes backend_m1).
Proof.
  split; [done|]. split; [by eexists|].
  intros H. apply (f_equal (fun o => o ≫= fun m => spec m !! "egress_filter")) in H.
  vm_compute in H. discriminate H.
Qed.

(** C4 (amended).  On a name that is already in the store, [create_mesh]
    succeeds: it returns a new record with version 1 and status ACTIVE and
    stores it under the name in place of the old one.  The names of the
    store, their order and the records under the other names stay as they
    were. *)
Theorem create_mesh_existing_replaces
    (e : env) (tok : option string) (name : string) (d : request_spec)
    (tgs : option (list (gmap string string))) (m0 : Mesh)
    (b : AppMeshBackend) :
  PyDict.get name (meshes b) = Some m0 →
  ∃ m b', create_mesh e tok name (Some d) tgs b = (b', inr m) ∧
          metadata m !! "version" = Some (MInt 1) ∧
          status m = StatusStr "ACTIVE" ∧
          spec m !! "egress_filter" = Some (egress_filter_of d) ∧
          spec m !! "service_discovery" = Some (service_discovery_of d) ∧
          PyDict.get name (meshes b') = Some m ∧
          PyDict.keys (meshes b') = PyDict.keys (meshes b) ∧
          ∀ k, k ≠ name → PyDict.get k (meshes b') = PyDict.get k (meshes b).
Proof.
  intros Hget. eexists _, _. split; [apply create_mesh_ok|].
  split_and!; try done.
  - apply get_set_meshes.
  - simpl. apply keys_set_present. by eexists.
  - intros k Hk. simpl. apply get_set_ne. congruence.
Qed.

Lemma create_mesh_existing_replaces_witness :
  ∃ m b',
    create_mesh env1 None "m1" (Some spec_egress_only) None backend_m1
    = (b', inr m) ∧
    metadata m !! "version" = Some (MInt 1) ∧
    status m = StatusStr "ACTIVE" ∧
    spec m !! "egress_filter" = Some (egress_filter_of spec_egress_only) ∧
    spec m !! "service_discovery" = Some (service_discovery_of spec_egress_only) ∧
    PyDict.get "m1" (meshes b') = Some m ∧
    PyDict.keys (meshes b') = PyDict.keys (meshes backend_m1) ∧
    ∀ k, k ≠ "m1" → PyDict.get k (meshes b') = PyDict.get k (meshes backend_m1).
Proof.
  apply (create_mesh_existing_replaces env1 None "m1" spec_egress_only None
           (new_mesh env0 (init "us-east-1" "123456789012") "m1" spec_full None)).
  reflexivity.
Defined.

(** C1, as stated, fails: without a spec, [update_mesh] returns the record
    with the version it had. *)
Lemma update_mesh_no_spec_counterexample :
  ∃ m m',
    PyDict.get "m1" (meshes backend_m1) = Some m ∧
    metadata m !! "version" = Some (MInt 1) ∧
    (update_mesh env1 None "m1" None backend_m1).2 = inr m' ∧
    metadata m' !! "version" = Some (MInt 1) ∧
    metadata m' !! "version" ≠ Some (MInt (1 + 1)).
Proof. eexists _, _. split_and!; [reflexivity..|]. vm_compute. discriminate. Qed.

(** C1 (amended).  For every mesh of a reachable store, [update_mesh] with
    a non-empty spec returns a record whose version is one greater than
    before and whose [last_updated_at] is the clock reading of the call,
    hence not earlier than the prior value when the clock has not run
    backwards; with no spec, or an empty one, it returns the record
    unchanged, version and [last_updated_at] included. *)
Theorem update_mesh_version_and_timestamp
    (e : env) (tok : option string) (name : string)
    (sp : option request_spec) (m : Mesh) (b : AppMeshBackend) :
  reachable b →
  PyDict.get name (meshes b) = Some m →
  ∃ v t m',
    metadata m !! "version" = Some (MInt v) ∧
    metadata m !! "last_updated_at" = Some (MDatetime t) ∧
    (update_mesh e tok name sp b).2 = inr m' ∧
    if truthy sp
    then metadata m' !! "version" = Some (MInt (v + 1)) ∧
         metadata m' !! "last_updated_at" = Some (MDatetime (now e)) ∧
         ((t ≤ now e)%Z → ∃ t', metadata m' !! "last_updated_at" = Some (MDatetime t') ∧ (t ≤ t')%Z)
    else m' = m.
Proof.
  intros Hr Hget.
  destruct (well_formed_get _ _ _ (reachable_well_formed _ Hr) Hget)
    as (_ & _ & v & t & Hv & _ & Ht).
  exists v, t. destruct (truthy sp) eqn:Hsp.
  - destruct sp as [d|]; [|done]. simpl in Hsp.
    apply negb_true_iff, bool_decide_eq_false_1 in Hsp.
    eexists. split; [done|]. split; [done|]. split.
    { by rewrite (update_mesh_truthy e tok name d m v b). }
    simpl. split; [|split].
    + by rewrite lookup_insert_eq.
    + rewrite lookup_insert_ne by done. by rewrite lookup_insert_eq.
    + intros Hle. exists (now e). split; [|done].
      rewrite lookup_insert_ne by done. by rewrite lookup_insert_eq.
  - exists m. split; [done|]. split; [done|]. split; [|done].
    by rewrite (update_mesh_falsy e tok name sp m b).
Qed.

Lemma update_mesh_version_and_timestamp_witness :
  ∃ v t m',
    metadata (new_mesh env0 (init "us-east-1" "123456789012") "m1" spec_full None)
      !! "version" = Some (MInt v) ∧
    metadata (new_mesh env0 (init "us-east-1" "123456789012") "m1" spec_full None)
      !! "last_updated_at" = Some (MDatetime t) ∧
    (update_mesh env1 None "m1" (Some spec_egress_only) backend_m1).2 = inr m' ∧
    if truthy (Some spec_egress_only)
    then metadata m' !! "version" = Some (MInt (v + 1)) ∧
         metadata m' !! "last_updated_at" = Some (MDatetime (now env1)) ∧
         ((t ≤ now env1)%Z → ∃ t', metadata m' !! "last_updated_at" = Some (MDatetime t') ∧ (t ≤ t')%Z)
    else m' = new_mesh env0 (init "us-east-1" "123456789012") "m1" spec_full None.
Proof.
  apply (update_mesh_version_and_timestamp env1 None "m1"
           (Some spec_egress_only) _ backend_m1).
  - apply reachable_backend_m1.
  - reflexivity.
Defined.

(** C5, as stated, fails: an update whose spec supplies [egressFilter] only
    clears the [ip_preference] the record had. *)
Lemma update_mesh_partial_spec_counterexample :
  ∃ m m',
    PyDict.get "m1" (meshes backend_m1) = Some m ∧
    spec m !! "service_discovery"
      = Some (Some {[ "ip_preference" := Some "IPv4_ONLY" ]}) ∧
    spec_egress_only !! "serviceDiscovery" = None ∧
    (update_mesh env1 None "m1" (Some spec_egress_only) backend_m1).2 = inr m' ∧
    spec m' !! "service_discovery" = Some (Some {[ "ip_preference" := None ]}).
Proof. eexists _, _. split_and!; by vm_compute. Qed.

(** C5 (amended).  For every mesh of a reachable store, [update_mesh] with
    a non-empty spec replaces both spec entries of the record by what the
    request holds: [egress_filter] becomes the request's [egressFilter] and
    [service_discovery] its [serviceDiscovery.ipPreference], each of them
    [None] when the request does not supply it.  The name, the status, the
    tags and the metadata entries other than [last_updated_at] and
    [version] keep their prior values. *)
Theorem update_mesh_replaces_spec
    (e : env) (tok : option string) (name : string) (d : request_spec)
    (m : Mesh) (b : AppMeshBackend) :
  reachable b →
  PyDict.get name (meshes b) = Some m →
  d ≠ ∅ →
  ∃ m',
    update_mesh e tok name (Some d) b
    = (set_meshes (PyDict.set name m') b, inr m') ∧
    spec m' !! "egress_filter" = Some (egress_filter_of d) ∧
    spec m' !! "service_discovery" = Some (service_discovery_of d) ∧
    (∀ k, k ≠ "egress_filter" → k ≠ "service_discovery" →
          spec m' !! k = spec m !! k) ∧
    mesh_name m' = mesh_name m ∧ status m' = status m ∧ tags m' = tags m ∧
    (∀ k, k ≠ "last_updated_at" → k ≠ "version" →
          metadata m' !! k = metadata m !! k).
Proof.
  intros Hr Hget Hd.
  destruct (well_formed_get _ _ _ (reachable_well_formed _ Hr) Hget)
    as (_ & _ & v & t & Hv & _ & Ht).
  eexists. split; [by apply (update_mesh_truthy e tok name d m v b)|].
  simpl. split; [|split; [|split; [|split; [|split; [|split]]]]]; try done.
  - rewrite lookup_insert_ne by done. by rewrite lookup_insert_eq.
  - by rewrite lookup_insert_eq.
  - intros k H1 H2. by rewrite !lookup_insert_ne.
  - intros k H1 H2. by rewrite !lookup_insert_ne.
Qed.

Lemma update_mesh_replaces_spec_witness :
  ∃ m',
    update_mesh env1 None "m1" (Some spec_egress_only) backend_m1
    = (set_meshes (PyDict.set "m1" m') backend_m1, inr m') ∧
    spec m' !! "egress_filter" = Some (egress_filter_of spec_egress_only) ∧
    spec m' !! "service_discovery" = Some (service_discovery_of spec_egress_only) ∧
    (∀ k, k ≠ "egress_filter" → k ≠ "service_discovery" →
          spec m' !! k
          = spec (new_mesh env0 (init "us-east-1" "123456789012") "m1"
                    spec_full None) !! k) ∧
    mesh_name m' = "m1" ∧ status m' = StatusStr "ACTIVE" ∧ tags m' = None ∧
    (∀ k, k ≠ "last_updated_at" → k ≠ "version" →
          metadata m' !! k
          = metadata (new_mesh env0 (init "us-east-1" "123456789012") "m1"
                        spec_full None) !! k).
Proof.
  apply (update_mesh_replaces_spec env1 None "m1" spec_egress_only
           (new_mesh env0 (init "us-east-1" "123456789012") "m1" spec_full None)
           backend_m1).
  - apply reachable_backend_m1.
  - reflexivity.
  - intros H. apply (f_equal (fun x : request_spec => x !! "egressFilter")) in H.
    vm_compute in H. discriminate H.
Defined.

(** ** Delete *)

(** C6: [delete_mesh] on the mesh that [create_mesh] has just stored raises
    [TypeError] at the assignment to [status["status"]]; no record is
    returned and the store still holds the mesh, unchanged. *)
Theorem delete_mesh_created_raises :
  delete_mesh "m1" backend_m1 = (backend_m1, inl TypeError) ∧
  PyDict.get "m1" (meshes (delete_mesh "m1" backend_m1).1)
  = Some (new_mesh env0 (init "us-east-1" "123456789012") "m1" spec_full None).
Proof. split; reflexivity. Qed.


(** ** Status and failed calls *)


Section Lifecycle.
Implicit Types (b : AppMeshBackend) (m : Mesh) (name : string).











End Lifecycle.



(** C9, as stated, fails: on a store whose record has its status in the
    dict shape, [delete_mesh] writes DELETED into the record and then
    raises; the call has failed and the store is not what it was. *)
Lemma failed_delete_changes_store_counterexample :
  ∃ b', run (DeleteMesh "m1") backend_dict = (b', inl AttributeError) ∧
        PyDict.get "m1" (meshes b')
        = Some (set_status
                  (StatusDict (<["status" := "DELETED"]> {[ "status" := "ACTIVE" ]}))
                  mesh_dict_status) ∧
        b' ≠ backend_dict.
Proof.
  eexists. split; [reflexivity|]. split; [reflexivity|].
  intros H.
  apply (f_equal (fun b => status_name <$> (status <$> PyDict.get "m1" (meshes b)))) in H.
  vm_compute in H. discriminate H.
Qed.



(** ** Pagination *)
Section PaginateFacts.
Context {A : Type} (attr : A → string).
Implicit Types (coll pre rest : list A) (token : option string).

Lemma resumes_start coll : resumes attr coll None coll.
Proof. by exists []. Qed.

Lemma after_token_app pre x rest :
  attr x ∉ attr <$> pre →
  after_token attr (attr x) (pre ++ x :: rest) = Some rest.
Proof.
  induction pre as [|y pre IH]; intros Hn; simpl.
  - by rewrite decide_True.
  - rewrite fmap_cons in Hn. apply not_elem_of_cons in Hn as [Hy Hn].
    rewrite decide_False by done. by apply IH.
Qed.

Lemma paginate_resumes default_limit coll token rest (l : Z) :
  NoDup (attr <$> coll) → resumes attr coll token rest → (0 < l)%Z →
  paginate attr default_limit coll token (Some l)
  = if decide (length rest ≤ Z.to_nat l)%nat then inr (rest, None)
    else inr (take (Z.to_nat l) rest, attr <$> last (take (Z.to_nat l) rest)).
Proof.
  intros Hnd (pre & -> & ->) Hl. unfold paginate. simpl.
  rewrite decide_False by lia.
  destruct (last pre) as [x|] eqn:Hlast; simpl.
  - apply last_Some in Hlast as [pre' ->].
    rewrite <- (assoc app), <- cons_middle.
    rewrite after_token_app; [done|].
    rewrite <- (assoc app), <- cons_middle, fmap_app, fmap_cons in Hnd.
    apply NoDup_app in Hnd as (_ & Hdis & Hnd').
    intros Hin. apply (Hdis _ Hin). left.
  - apply last_None in Hlast as ->. done.
Qed.

Lemma resumes_step coll token rest (n : nat) :
  resumes attr coll token rest → (0 < n)%nat → (n < length rest)%nat →
  ∃ y, last (take n rest) = Some y ∧
       resumes attr coll (Some (attr y)) (drop n rest).
Proof.
  intros (pre & -> & _) Hn Hlen.
  destruct (last (take n rest)) as [y|] eqn:Hlast.
  - exists y. split; [done|]. exists (pre ++ take n rest)%list. split.
    + by rewrite <- (assoc app), take_drop.
    + apply last_Some in Hlast as [page' Hpage]. rewrite Hpage.
      by rewrite (assoc app), last_snoc.
  - apply last_None in Hlast. apply (f_equal length) in Hlast.
    rewrite length_take in Hlast. simpl in Hlast. lia.
Qed.
End PaginateFacts.

Lemma list_meshes_eq (limit : option Z) (token : option string)
    (b : AppMeshBackend) :
  list_meshes limit token b
  = (b, paginate mesh_name 100 (PyDict.values (meshes b)) token limit).
Proof. reflexivity. Qed.

Lemma well_formed_names (b : AppMeshBackend) :
  well_formed b → NoDup (mesh_name <$> PyDict.values (meshes b)).
Proof.
  intros [Hnd Hall].
  assert (mesh_name <$> PyDict.values (meshes b) = PyDict.keys (meshes b)) as ->;
    [|done].
  unfold PyDict.values, PyDict.keys.
  induction Hall as [|[k m] d (Hk & _) _ IH]; [done|].
  simpl in *. rewrite Hk. f_equal. apply IH. by apply NoDup_cons_1_2 in Hnd.
Qed.

Lemma list_all_meshes_from (b : AppMeshBackend) (l : Z) :
  well_formed b → (0 < l)%Z →
  ∀ (fuel : nat) (token : option string) (rest : list Mesh),
    resumes mesh_name (PyDict.values (meshes b)) token rest →
    (length rest < fuel)%nat →
    ∃ rs page,
      list_all_meshes fuel (Some l) token b = Some (rs ++ [(page, None)])%list ∧
      (concat rs.*1 ++ page)%list = rest ∧
      Forall (fun r => is_Some r.2 ∧ length r.1 = Z.to_nat l) rs ∧
      (length page ≤ Z.to_nat l)%nat.
Proof.
  intros Hwf Hl fuel. induction fuel as [|fuel IH]; intros token rest Hres Hlen;
    [lia|].
  simpl. rewrite list_meshes_eq.
  rewrite (paginate_resumes mesh_name 100 _ token rest l)
    by (done || by apply well_formed_names).
  destruct (decide (length rest ≤ Z.to_nat l)%nat) as [Hle|Hgt].
  - exists [], rest. by split_and!.
  - destruct (resumes_step mesh_name _ token rest (Z.to_nat l) Hres)
      as (y & Hy & Hres'); [lia..|].
    rewrite Hy. simpl.
    destruct (IH (Some (mesh_name y)) (drop (Z.to_nat l) rest) Hres')
      as (rs & page & Hrun & Hcat & Hall & Hpage).
    { rewrite length_drop. lia. }
    exists ((take (Z.to_nat l) rest, Some (mesh_name y)) :: rs), page.
    rewrite Hrun. split_and!; [done| | |done].
    + rewrite fmap_cons, concat_cons, <- (assoc app), Hcat. apply take_drop.
    + constructor; [|done]. simpl. split; [by eexists|].
      rewrite length_take. lia.
Qed.

Lemma reachable_create (e : env) (tok : option string) (name : string)
    (sp : option request_spec) (tgs : option (list (gmap string string)))
    (b : AppMeshBackend) :
  reachable b → reachable (create_mesh e tok name sp tgs b).1.
Proof.
  intros Hr. rewrite <- (fmap_state RMesh).
  apply (reachable_run b (CreateMesh e tok name sp tgs) Hr).
Qed.

Lemma reachable_backend_5 : reachable backend_5.
Proof.
  unfold backend_5. generalize (reachable_init "us-east-1" "123456789012").
  generalize (init "us-east-1" "123456789012").
  induction ["a"; "b"; "c"; "d"; "e"] as [|name names IH]; intros b Hr; [done|].
  apply IH. by apply (reachable_create env0 None name (Some spec_full) None).
Qed.

(** Five meshes listed two at a time: pages of 2, 2 and 1, the tokens being
    the name of the last mesh of each page, none on the last. *)
Example list_all_meshes_5_by_2 :
  option_map (map response_names)
    (list_all_meshes 6 (Some 2%Z) None backend_5)
  = Some [(["a"; "b"], Some "b"); (["c"; "d"], Some "d"); (["e"], None)].
Proof. vm_compute. reflexivity. Qed.

(** C8.  On every reachable store and for every positive limit, the client
    that calls [list_meshes] first without a token and then with each token
    it gets back terminates (any fuel above the number of meshes is enough)
    on a response without token; every earlier response carries a token;
    the pages put end to end are exactly [self.meshes.values()], in order,
    and no mesh occurs twice. *)
Theorem list_meshes_pages_cover (b : AppMeshBackend) (limit : Z) (fuel : nat) :
  reachable b → (0 < limit)%Z → (length (meshes b) < fuel)%nat →
  ∃ rs page,
    list_all_meshes fuel (Some limit) None b = Some (rs ++ [(page, None)])%list ∧
    (concat rs.*1 ++ page)%list = PyDict.values (meshes b) ∧
    NoDup (concat rs.*1 ++ page)%list ∧
    NoDup (mesh_name <$> (concat rs.*1 ++ page)%list) ∧
    Forall (fun r => is_Some r.2) rs.
Proof.
  intros Hwf%reachable_well_formed Hl Hfuel.
  destruct (list_all_meshes_from b limit Hwf Hl fuel None
              (PyDict.values (meshes b)))
    as (rs & page & Hrun & Hcat & Hall & _).
  { apply resumes_start. }
  { unfold PyDict.values. by rewrite length_fmap. }
  exists rs, page. rewrite Hcat.
  pose proof (well_formed_names b Hwf) as Hnd.
  split_and!; [done..| by eapply NoDup_fmap_1 | done |].
  eapply Forall_impl; [exact Hall|]. by intros r [? _].
Qed.

Lemma list_meshes_pages_cover_witness :
  ∃ rs page,
    list_all_meshes 6 (Some 2%Z) None backend_5 = Some (rs ++ [(page, None)])%list ∧
    (concat rs.*1 ++ page)%list = PyDict.values (meshes backend_5) ∧
    NoDup (concat rs.*1 ++ page)%list ∧
    NoDup (mesh_name <$> (concat rs.*1 ++ page)%list) ∧
    Forall (fun r => is_Some r.2) rs.
Proof.
  apply (list_meshes_pages_cover backend_5 2 6).
  - apply reachable_backend_5.
  - lia.
  - vm_compute. lia.
Defined.

(** * Further properties of the backend *)

(** ** Missing names and new names *)

(** [update_mesh], [describe_mesh] and [delete_mesh] on a name that is not
    in the store raise [MeshNotFoundError] carrying that name and leave the
    backend as it was, whatever the state and the other arguments. *)
Theorem missing_mesh_not_found
    (e : env) (tok : option string) (name : string)
    (sp : option request_spec) (owner : option string) (b : AppMeshBackend) :
  PyDict.get name (meshes b) = None →
  update_mesh e tok name sp b = (b, inl (MeshNotFoundError name)) ∧
  describe_mesh name owner b = (b, inl (MeshNotFoundError name)) ∧
  delete_mesh name b = (b, inl (MeshNotFoundError name)).
Proof.
  intros Hget. split_and!.
  - by apply update_mesh_absent.
  - by apply describe_mesh_absent.
  - by apply delete_mesh_absent.
Qed.

Lemma missing_mesh_not_found_witness :
  update_mesh env1 None "m2" (Some spec_full) backend_m1
  = (backend_m1, inl (MeshNotFoundError "m2")) ∧
  describe_mesh "m2" None backend_m1
  = (backend_m1, inl (MeshNotFoundError "m2")) ∧
  delete_mesh "m2" backend_m1 = (backend_m1, inl (MeshNotFoundError "m2")).
Proof.
  apply (missing_mesh_not_found env1 None "m2" (Some spec_full) None backend_m1).
  reflexivity.
Defined.

Lemma values_set_absent {V} (k : string) (v : V) (d : list (string * V)) :
  PyDict.get k d = None →
  PyDict.values (PyDict.set k v d) = (PyDict.values d ++ [v])%list.
Proof.
  unfold PyDict.values. induction d as [|[k0 v0] d IH]; simpl; [done|].
  destruct (decide (k = k0)) as [->|Hk]; simpl; [done|].
  intros H. f_equal. by apply IH.
Qed.

(** [create_mesh] on a name that is not in the store puts the new record
    after all the others: the names and the records that [list_meshes]
    iterates are the old ones followed by the new one, and every other
    name still leads to its record. *)
Theorem create_mesh_appends
    (e : env) (tok : option string) (name : string) (d : request_spec)
    (tgs : option (list (gmap string string))) (b : AppMeshBackend) :
  PyDict.get name (meshes b) = None →
  ∃ m b',
    create_mesh e tok name (Some d) tgs b = (b', inr m) ∧
    PyDict.keys (meshes b') = (PyDict.keys (meshes b) ++ [name])%list ∧
    PyDict.values (meshes b') = (PyDict.values (meshes b) ++ [m])%list ∧
    PyDict.get name (meshes b') = Some m ∧
    ∀ k, k ≠ name → PyDict.get k (meshes b') = PyDict.get k (meshes b).
Proof.
  intros Hget. eexists _, _. split; [apply create_mesh_ok|]. simpl.
  split_and!.
  - by apply keys_set_absent.
  - by apply values_set_absent.
  - apply get_set_eq.
  - intros k Hk. apply get_set_ne. congruence.
Qed.

Lemma create_mesh_appends_witness :
  ∃ m b',
    create_mesh env1 None "m2" (Some spec_egress_only) None backend_m1
    = (b', inr m) ∧
    PyDict.keys (meshes b') = (PyDict.keys (meshes backend_m1) ++ ["m2"])%list ∧
    PyDict.values (meshes b') = (PyDict.values (meshes backend_m1) ++ [m])%list ∧
    PyDict.get "m2" (meshes b') = Some m ∧
    ∀ k, k ≠ "m2" → PyDict.get k (meshes b') = PyDict.get k (meshes backend_m1).
Proof.
  apply (create_mesh_appends env1 None "m2" spec_egress_only None backend_m1).
  reflexivity.
Defined.

(** ** What no call does *)
Section Grows.
Implicit Types (b : AppMeshBackend) (name : string).

Lemma grows_refl b : grows b b.
Proof. by split_and!. Qed.

Lemma grows_trans b1 b2 b3 : grows b1 b2 → grows b2 b3 → grows b1 b3.
Proof.
  intros (? & ? & ?) (? & ? & ?). split_and!; [congruence..|by etrans].
Qed.

Lemma grows_set name m b : grows b (set_meshes (PyDict.set name m) b).
Proof.
  split_and!; [done..|]. simpl.
  destruct (PyDict.get name (meshes b)) as [m0|] eqn:Hget.
  - rewrite keys_set_present by by eexists. done.
  - rewrite keys_set_absent by done. by apply prefix_app_r.
Qed.

Lemma grows_bind {A B} (c : M A) (k : A → M B) :
  (∀ b, grows b (c b).1) → (∀ a b, grows b (k a b).1) →
  ∀ b, grows b ((c ≫= k) b).1.
Proof.
  intros Hc Hk b. unfold mbind, M_bind, bind.
  specialize (Hc b). destruct (c b) as [b1 [x|a]]; [done|].
  eapply grows_trans; [exact Hc|]. apply Hk.
Qed.

Lemma grows_getitem name b : grows b (getitem name b).1.
Proof. unfold getitem. destruct (PyDict.get _ _); apply grows_refl. Qed.

Lemma grows_mutate name (f : Mesh → exn + Mesh) b : grows b (mutate name f b).1.
Proof.
  unfold mutate. apply grows_bind; [intros; apply grows_getitem|].
  intros m b1. apply grows_bind; [intros; apply grows_refl|].
  intros m' b2. apply grows_set.
Qed.

Lemma grows_update e tok name sp b : grows b (update_mesh e tok name sp b).1.
Proof.
  unfold update_mesh. destruct (negb _); [apply grows_refl|].
  apply grows_bind; [|intros; apply grows_getitem].
  intros b1. destruct sp as [d|]; [|apply grows_refl].
  destruct (truthy (Some d)); [|apply grows_refl].
  repeat (apply grows_bind; [intros; apply grows_mutate|intros ?]).
  intros b2. apply grows_mutate.
Qed.

Lemma grows_delete name b : grows b (delete_mesh name b).1.
Proof.
  destruct (PyDict.get name (meshes b)) as [m|] eqn:Hget.
  - destruct (status m) as [s|d] eqn:Hst.
    + erewrite delete_mesh_str by done. apply grows_refl.
    + erewrite delete_mesh_dict by done. apply grows_set.
  - rewrite delete_mesh_absent by done. apply grows_refl.
Qed.
End Grows.

(** Whatever the state and the call, failed or not: the region and the
    account of the backend stay, and the names of the store after the call
    start with the names before it, in the same order.  No call removes a
    mesh or moves one. *)
Theorem run_keeps_names (c : call) (b : AppMeshBackend) :
  region_name (run c b).1 = region_name b ∧
  account_id (run c b).1 = account_id b ∧
  PyDict.keys (meshes b) `prefix_of` PyDict.keys (meshes (run c b).1).
Proof.
  change (grows b (run c b).1). destruct c; simpl; rewrite fmap_state.
  - destruct sp as [d|]; [|apply grows_refl].
    rewrite create_mesh_ok. apply grows_set.
  - apply grows_update.
  - rewrite describe_mesh_state. apply grows_refl.
  - apply grows_delete.
  - apply grows_refl.
Qed.

(** [delete_mesh] never returns a record, whatever the state.  On a name
    that is not stored it raises [MeshNotFoundError] with that name and
    leaves the backend as it was; when the stored status is a string it
    raises [TypeError] and leaves the backend as it was; when the stored
    status is a dict it writes DELETED into it, raises [AttributeError] and
    leaves the record, so marked, in the store.  In every case the name is
    in the store after the call exactly if it was before. *)
Theorem delete_mesh_never_returns (name : string) (b : AppMeshBackend) :
  match PyDict.get name (meshes b) with
  | None => delete_mesh name b = (b, inl (MeshNotFoundError name))
  | Some m =>
      match status m with
      | StatusStr _ => delete_mesh name b = (b, inl TypeError)
      | StatusDict d =>
          delete_mesh name b
          = (set_meshes
               (PyDict.set name
                  (set_status (StatusDict (<["status" := "DELETED"]> d)) m)) b,
             inl AttributeError)
      end
  end ∧
  (∃ x, (delete_mesh name b).2 = inl x) ∧
  PyDict.contains name (meshes (delete_mesh name b).1)
  = PyDict.contains name (meshes b).
Proof.
  destruct (PyDict.get name (meshes b)) as [m|] eqn:Hget.
  - destruct (status m) as [s|d] eqn:Hst.
    + rewrite (delete_mesh_str name m s b) by done.
      split_and!; [done|by eexists|done].
    + rewrite (delete_mesh_dict name m d b) by done.
      split_and!; [done|by eexists|]. simpl.
      unfold PyDict.contains. by rewrite get_set_eq, Hget.
  - rewrite delete_mesh_absent by done.
    split_and!; [done|by eexists|done].
Qed.

(** ** Records of reachable stores *)
Section Shapes.
Implicit Types (b : AppMeshBackend) (m : Mesh) (name : string).

Lemma record_shape_new e b name d tgs : record_shape b name (new_mesh e b name d tgs).
Proof.
  split_and!; try done; by eexists.
Qed.

Lemma record_shape_update e d b name m v :
  record_shape b name m →
  metadata m !! "version" = Some (MInt v) →
  record_shape b name
    (set_metadata (insert "version" (MInt (v + 1)))
       (set_metadata (insert "last_updated_at" (MDatetime (now e)))
          (set_spec (insert "service_discovery" (service_discovery_of d))
             (set_spec (insert "egress_filter" (egress_filter_of d)) m)))).
Proof.
  intros (Hn & Hdm & Harn & Hc & Hl & Ho & Hu & (v' & Hv' & Hv1) & Hds & Hsd & Hst) Hv.
  assert (v' = v) as -> by congruence.
  split_and!; simpl; try done.
  - rewrite !dom_insert_L, Hdm. set_solver.
  - by rewrite !lookup_insert_ne.
  - by rewrite !lookup_insert_ne.
  - exists (now e). rewrite lookup_insert_ne by done. by rewrite lookup_insert_eq.
  - by rewrite !lookup_insert_ne.
  - by rewrite !lookup_insert_ne.
  - exists (v + 1)%Z. rewrite lookup_insert_eq. split; [done|lia].
  - rewrite !dom_insert_L, Hds. set_solver.
  - eexists. by rewrite lookup_insert_eq.
Qed.

Lemma shaped_get name m b :
  shaped b → PyDict.get name (meshes b) = Some m → record_shape b name m.
Proof.
  intros Hall Hget%get_elem_of. unfold shaped in Hall.
  rewrite Forall_forall in Hall. by apply (Hall (name, m)).
Qed.

Lemma shaped_set name m b :
  shaped b → record_shape b name m → shaped (set_meshes (PyDict.set name m) b).
Proof. intros Hall Hm. unfold shaped. simpl. by apply Forall_set. Qed.

Lemma shaped_run c b : shaped b → shaped (run c b).1.
Proof.
  intros Hs. destruct c; simpl; rewrite fmap_state.
  - destruct sp as [d|]; [|done]. rewrite create_mesh_ok.
    apply shaped_set; [done|]. apply record_shape_new.
  - destruct (PyDict.get name (meshes b)) as [m|] eqn:Hget.
    + destruct (truthy sp) eqn:Hsp.
      * destruct sp as [d|]; [|done]. simpl in Hsp.
        apply negb_true_iff, bool_decide_eq_false_1 in Hsp.
        pose proof (shaped_get _ _ _ Hs Hget) as Hm.
        destruct (Hm) as (_ & _ & _ & _ & _ & _ & _ & (v & Hv & _) & _).
        rewrite (update_mesh_truthy e client_token name d m v b) by done.
        apply shaped_set; [done|]. by apply record_shape_update.
      * by rewrite (update_mesh_falsy e client_token name sp m b).
    + by rewrite update_mesh_absent.
  - by rewrite describe_mesh_state.
  - destruct (PyDict.get name (meshes b)) as [m|] eqn:Hget.
    + destruct (shaped_get _ _ _ Hs Hget) as (_ & _ & _ & _ & _ & _ & _ & _ & _ & _ & Hst).
      by erewrite delete_mesh_str.
    + by rewrite delete_mesh_absent.
  - done.
Qed.

Lemma reachable_shaped b : reachable b → shaped b.
Proof.
  induction 1 as [region account|b c _ IH].
  - apply Forall_nil_2.
  - by apply shaped_run.
Qed.
End Shapes.

(** Every record of a reachable store, found under [name]: its [mesh_name]
    is [name]; its metadata holds exactly the six entries [create_mesh]
    wrote, with the ARN [arn:aws:appmesh:<region>:<account>:<name>] of the
    backend's own region and account, two clock readings, the owner, the
    uid and an integer version that is at least 1; its spec holds exactly
    [egress_filter] and [service_discovery], the latter a dict with the one
    key [ip_preference]; its status is the string ACTIVE. *)
Theorem reachable_record_shape (b : AppMeshBackend) (name : string) (m : Mesh) :
  reachable b → PyDict.get name (meshes b) = Some m →
  mesh_name m = name ∧
  dom (metadata m)
  = ({[ "arn"; "created_at"; "last_updated_at"; "mesh_owner"; "uid"; "version" ]}
       : gset string) ∧
  metadata m !! "arn"
  = Some (MStr ("arn:aws:appmesh:" +:+ region_name b +:+ ":" +:+ account_id b
                +:+ ":" +:+ name)) ∧
  (∃ t, metadata m !! "created_at" = Some (MDatetime t)) ∧
  (∃ t, metadata m !! "last_updated_at" = Some (MDatetime t)) ∧
  (∃ s, metadata m !! "mesh_owner" = Some (MStr s)) ∧
  (∃ u, metadata m !! "uid" = Some (MUuid u)) ∧
  (∃ v, metadata m !! "version" = Some (MInt v) ∧ (1 ≤ v)%Z) ∧
  dom (spec m) = ({[ "egress_filter"; "service_discovery" ]} : gset string) ∧
  (∃ ip, spec m !! "service_discovery" = Some (Some {[ "ip_preference" := ip ]})) ∧
  status m = StatusStr "ACTIVE".
Proof. intros Hr Hget. exact (shaped_get _ _ _ (reachable_shaped _ Hr) Hget). Qed.

Lemma reachable_record_shape_witness :
  let m := new_mesh env0 (init "us-east-1" "123456789012") "m1" spec_full None in
  mesh_name m = "m1" ∧
  dom (metadata m)
  = ({[ "arn"; "created_at"; "last_updated_at"; "mesh_owner"; "uid"; "version" ]}
       : gset string) ∧
  metadata m !! "arn"
  = Some (MStr ("arn:aws:appmesh:" +:+ region_name backend_m1 +:+ ":"
                +:+ account_id backend_m1 +:+ ":" +:+ "m1")) ∧
  (∃ t, metadata m !! "created_at" = Some (MDatetime t)) ∧
  (∃ t, metadata m !! "last_updated_at" = Some (MDatetime t)) ∧
  (∃ s, metadata m !! "mesh_owner" = Some (MStr s)) ∧
  (∃ u, metadata m !! "uid" = Some (MUuid u)) ∧
  (∃ v, metadata m !! "version" = Some (MInt v) ∧ (1 ≤ v)%Z) ∧
  dom (spec m) = ({[ "egress_filter"; "service_discovery" ]} : gset string) ∧
  (∃ ip, spec m !! "service_discovery" = Some (Some {[ "ip_preference" := ip ]})) ∧
  status m = StatusStr "ACTIVE".
Proof.
  apply (reachable_record_shape backend_m1 "m1").
  - apply reachable_backend_m1.
  - reflexivity.
Defined.

(** ** How updates compose *)

(** After [update_mesh] with a non-empty spec on a mesh of a reachable
    store, the spec of the record is the one [create_mesh] builds from that
    request alone: nothing of the earlier spec is left, so of two updates
    the later one decides. *)
Theorem update_mesh_spec_as_created
    (e e' : env) (tok : option string) (name : string) (d : request_spec)
    (tgs : option (list (gmap string string))) (m : Mesh) (b b' : AppMeshBackend) :
  reachable b → PyDict.get name (meshes b) = Some m → d ≠ ∅ →
  ∃ m', (update_mesh e tok name (Some d) b).2 = inr m' ∧
        spec m' = spec (new_mesh e' b' name d tgs) ∧
        spec m' = {[ "egress_filter" := egress_filter_of d;
                     "service_discovery" := service_discovery_of d ]}.
Proof.
  intros Hr Hget Hd.
  destruct (shaped_get _ _ _ (reachable_shaped _ Hr) Hget)
    as (_ & _ & _ & _ & _ & _ & _ & (v & Hv & _) & Hds & _).
  eexists. split; [by rewrite (update_mesh_truthy e tok name d m v b)|].
  simpl. assert (<["service_discovery":=service_discovery_of d]>
                   (<["egress_filter":=egress_filter_of d]> (spec m))
                 = {[ "egress_filter" := egress_filter_of d;
                      "service_discovery" := service_discovery_of d ]}) as ->;
    [|done].
  apply map_eq. intros k.
  destruct (decide (k = "service_discovery")) as [->|Hk1].
  { rewrite lookup_insert_eq, lookup_insert_ne by done.
    by rewrite lookup_singleton_eq. }
  destruct (decide (k = "egress_filter")) as [->|Hk2].
  { rewrite lookup_insert_ne by done. by rewrite !lookup_insert_eq. }
  rewrite !lookup_insert_ne by done. rewrite lookup_singleton_ne by done.
  apply not_elem_of_dom. rewrite Hds. set_solver.
Qed.

Lemma update_mesh_spec_as_created_witness :
  ∃ m', (update_mesh env1 None "m1" (Some spec_egress_only) backend_m1).2 = inr m' ∧
        spec m' = spec (new_mesh env0 backend_m1 "m1" spec_egress_only None) ∧
        spec m' = {[ "egress_filter" := egress_filter_of spec_egress_only;
                     "service_discovery" := service_discovery_of spec_egress_only ]}.
Proof.
  apply (update_mesh_spec_as_created env1 env0 None "m1" spec_egress_only None
           (new_mesh env0 (init "us-east-1" "123456789012") "m1" spec_full None)
           backend_m1 backend_m1).
  - apply reachable_backend_m1.
  - reflexivity.
  - intros H. apply (f_equal (fun x : request_spec => x !! "egressFilter")) in H.
    vm_compute in H. discriminate H.
Defined.

(** A series of [update_mesh] calls on one mesh, each with a non-empty
    spec, adds one to the version per call: after them the version is the
    prior version plus the number of calls. *)
Theorem updates_count_version
    (name : string) (us : list (env * request_spec)) (m : Mesh) (v : Z)
    (b : AppMeshBackend) :
  PyDict.get name (meshes b) = Some m →
  metadata m !! "version" = Some (MInt v) →
  Forall (fun u => u.2 ≠ ∅) us →
  ∃ m', PyDict.get name (meshes (update_all name us b)) = Some m' ∧
        metadata m' !! "version" = Some (MInt (v + Z.of_nat (length us))).
Proof.
  intros Hget Hv Hus. revert b m v Hget Hv.
  induction Hus as [|[e d] us Hd _ IH]; intros b m v Hget Hv.
  - exists m. split; [done|]. simpl. rewrite Z.add_0_r. done.
  - simpl in Hd.
    change (update_all name ((e, d) :: us) b)
      with (update_all name us (update_mesh e None name (Some d) b).1).
    rewrite (update_mesh_truthy e None name d m v b) by done.
    replace (v + Z.of_nat (length ((e, d) :: us)))%Z
      with ((v + 1) + Z.of_nat (length us))%Z by (simpl length; lia).
    eapply IH; [apply get_set_meshes|]. simpl. apply lookup_insert_eq.
Qed.

Lemma updates_count_version_witness :
  ∃ m', PyDict.get "m1"
          (meshes (update_all "m1"
                     [(env1, spec_egress_only); (env1, spec_full); (env1, spec_egress_only)]
                     backend_m1)) = Some m' ∧
        metadata m' !! "version" = Some (MInt (1 + Z.of_nat 3)).
Proof.
  apply (updates_count_version "m1"
           [(env1, spec_egress_only); (env1, spec_full); (env1, spec_egress_only)]
           (new_mesh env0 (init "us-east-1" "123456789012") "m1" spec_full None)
           1 backend_m1).
  - reflexivity.
  - reflexivity.
  - repeat constructor; simpl; intros H;
      apply (f_equal (fun x : request_spec => x !! "egressFilter")) in H;
      vm_compute in H; discriminate H.
Defined.

Lemma bind_getitem_inv {A} (c : M A) (name : string) (b b' : AppMeshBackend)
    (m : Mesh) :
  (c ≫= fun _ => getitem name) b = (b', inr m) →
  PyDict.get name (meshes b') = Some m.
Proof.
  unfold mbind, M_bind, bind, getitem. destruct (c b) as [b1 [x|a]]; [done|].
  destruct (PyDict.get name (meshes b1)) as [m1|] eqn:Hget; [|done].
  by intros [= <- <-].
Qed.

(** Whatever the state: when [update_mesh] returns a record, a
    [describe_mesh] of the same name right after it returns that record and
    leaves the backend as the update left it. *)
Theorem update_then_describe
    (e : env) (tok : option string) (name : string) (sp : option request_spec)
    (owner : option string) (m : Mesh) (b b' : AppMeshBackend) :
  update_mesh e tok name sp b = (b', inr m) →
  describe_mesh name owner b' = (b', inr m).
Proof.
  intros Hup. apply describe_mesh_ok. revert Hup. unfold update_mesh.
  destruct (negb _); [done|]. apply bind_getitem_inv.
Qed.

Lemma update_then_describe_witness :
  describe_mesh "m1" None
    (update_mesh env1 None "m1" (Some spec_egress_only) backend_m1).1
  = ((update_mesh env1 None "m1" (Some spec_egress_only) backend_m1).1,
     inr (set_metadata (insert "version" (MInt 2))
            (set_metadata (insert "last_updated_at" (MDatetime 2000))
               (set_spec (insert "service_discovery"
                            (service_discovery_of spec_egress_only))
                  (set_spec (insert "egress_filter"
                               (egress_filter_of spec_egress_only))
                     (new_mesh env0 (init "us-east-1" "123456789012") "m1"
                        spec_full None)))))).
Proof.
  apply (update_then_describe env1 None "m1" (Some spec_egress_only) None _
           backend_m1).
  reflexivity.
Defined.

(** * [Mesh.to_dict] and the handlers *)
Section ToDict.
Implicit Types (b : AppMeshBackend) (m : Mesh) (name : string).

Lemma to_dict_spec_of_request m (d : request_spec) :
  spec m = {[ "egress_filter" := egress_filter_of d;
              "service_discovery" := service_discovery_of d ]} →
  item (to_dict m) "spec"
  = Some (PDict
      {[ "egressFilter" :=
           match d !! "egressFilter" with
           | Some f => PDict (PStr <$> f)
           | None => PNone
           end;
         "serviceDiscovery" :=
           PDict {[ "ipPreference" :=
                      opt_str_to_py
                        (or_empty (d !! "serviceDiscovery") !! "ipPreference") ]} ]}).
Proof.
  intros Hspec. unfold to_dict, item.
  rewrite lookup_insert_ne, lookup_insert_ne, lookup_insert_eq by done.
  do 3 f_equal.
  - unfold egress_filter_get. rewrite Hspec, lookup_insert_eq.
    unfold egress_filter_of. destruct (d !! "egressFilter") as [f|]; [|done].
    f_equal. rewrite <- map_fmap_compose. done.
  - do 3 f_equal. unfold ip_preference_get, service_discovery_get.
    rewrite Hspec, lookup_insert_ne, lookup_singleton_eq by done.
    unfold service_discovery_of. rewrite bool_decide_eq_false_2.
    + by rewrite lookup_singleton_eq.
    + intros H. apply (f_equal (fun x => x !! "ip_preference")) in H.
      by rewrite lookup_singleton_eq in H.
Qed.

Lemma json_serializable_dict (d : gmap string pyval) (k : string) (v : pyval) :
  d !! k = Some v → json_serializable v = false →
  json_serializable (PDict d) = false.
Proof.
  intros Hk Hv. simpl.
  rewrite (map_fold_delete_L _ _ k v d); [by rewrite Hv| |done].
  intros j1 j2 z1 z2 y _ _ _.
  by destruct (json_serializable z1), (json_serializable z2), y.
Qed.

Lemma to_dict_not_serializable m t :
  metadata m !! "created_at" = Some (MDatetime t) →
  json_serializable (to_dict m) = false.
Proof.
  intros Hc. unfold to_dict.
  eapply (json_serializable_dict _ "metadata"); [done|].
  eapply (json_serializable_dict _ "createdAt"); [done|].
  unfold metadata_get. by rewrite Hc.
Qed.

Lemma json_dumps_mesh m t :
  metadata m !! "created_at" = Some (MDatetime t) →
  json_dumps (to_dict m) = inl TypeError ∧
  json_dumps (PDict {[ "mesh" := to_dict m ]}) = inl TypeError.
Proof.
  intros Hc. pose proof (to_dict_not_serializable m t Hc) as Hn.
  assert (json_serializable (PDict {[ "mesh" := to_dict m ]}) = false) as Hw.
  { apply (json_serializable_dict _ "mesh" (to_dict m)); [|exact Hn].
    apply lookup_singleton_eq. }
  unfold json_dumps. rewrite Hn, Hw. split; reflexivity.
Qed.
End ToDict.

(** The spec block of [to_dict] gives back the request.  For the record
    that [create_mesh] returns for a request spec [d], the ["spec"] entry
    of [to_dict] holds [egressFilter], equal to the one of [d] ([None] when
    [d] has none), and [serviceDiscovery.ipPreference], equal to the one of
    [d] ([None] when [d] has no [serviceDiscovery], an empty one, or one
    without [ipPreference]); ["meshName"] is the name and ["status"] is the
    plain string ACTIVE, not a dict. *)
Theorem to_dict_after_create
    (e : env) (tok : option string) (name : string) (d : request_spec)
    (tgs : option (list (gmap string string))) (b : AppMeshBackend) :
  ∃ m b',
    create_mesh e tok name (Some d) tgs b = (b', inr m) ∧
    item (to_dict m) "meshName" = Some (PStr name) ∧
    item (to_dict m) "status" = Some (PStr "ACTIVE") ∧
    item (to_dict m) "spec"
    = Some (PDict
        {[ "egressFilter" :=
             match d !! "egressFilter" with
             | Some f => PDict (PStr <$> f)
             | None => PNone
             end;
           "serviceDiscovery" :=
             PDict {[ "ipPreference" :=
                        opt_str_to_py
                          (or_empty (d !! "serviceDiscovery") !! "ipPreference") ]} ]}).
Proof.
  eexists _, _. split; [apply create_mesh_ok|].
  split_and!; [done..|]. by apply to_dict_spec_of_request.
Qed.

(** The same after an update: for a mesh of a reachable store,
    [update_mesh] with a non-empty spec [d] returns a record whose
    [to_dict] holds, under ["spec"], the [egressFilter] and the
    [serviceDiscovery.ipPreference] of [d] and nothing of the spec the
    record had before. *)
Theorem to_dict_after_update
    (e : env) (tok : option string) (name : string) (d : request_spec)
    (m : Mesh) (b : AppMeshBackend) :
  reachable b → PyDict.get name (meshes b) = Some m → d ≠ ∅ →
  ∃ m',
    (update_mesh e tok name (Some d) b).2 = inr m' ∧
    item (to_dict m') "spec"
    = Some (PDict
        {[ "egressFilter" :=
             match d !! "egressFilter" with
             | Some f => PDict (PStr <$> f)
             | None => PNone
             end;
           "serviceDiscovery" :=
             PDict {[ "ipPreference" :=
                        opt_str_to_py
                          (or_empty (d !! "serviceDiscovery") !! "ipPreference") ]} ]}).
Proof.
  intros Hr Hget Hd.
  destruct (shaped_get _ _ _ (reachable_shaped _ Hr) Hget)
    as (_ & _ & _ & _ & _ & _ & _ & (v & Hv & _) & Hds & _).
  eexists. split; [by rewrite (update_mesh_truthy e tok name d m v b)|].
  apply to_dict_spec_of_request. simpl.
  apply map_eq. intros k.
  destruct (decide (k = "service_discovery")) as [->|Hk1].
  { rewrite lookup_insert_eq, lookup_insert_ne by done.
    by rewrite lookup_singleton_eq. }
  destruct (decide (k = "egress_filter")) as [->|Hk2].
  { rewrite lookup_insert_ne by done. by rewrite !lookup_insert_eq. }
  rewrite !lookup_insert_ne by done. rewrite lookup_singleton_ne by done.
  apply not_elem_of_dom. rewrite Hds. set_solver.
Qed.

Lemma to_dict_after_update_witness :
  ∃ m',
    (update_mesh env1 None "m1" (Some spec_egress_only) backend_m1).2 = inr m' ∧
    item (to_dict m') "spec"
    = Some (PDict
        {[ "egressFilter" :=
             match spec_egress_only !! "egressFilter" with
             | Some f => PDict (PStr <$> f)
             | None => PNone
             end;
           "serviceDiscovery" :=
             PDict {[ "ipPreference" :=
                        opt_str_to_py
                          (or_empty (spec_egress_only !! "serviceDiscovery")
                             !! "ipPreference") ]} ]}).
Proof.
  apply (to_dict_after_update env1 None "m1" spec_egress_only
           (new_mesh env0 (init "us-east-1" "123456789012") "m1" spec_full None)
           backend_m1).
  - apply reachable_backend_m1.
  - reflexivity.
  - intros H. apply (f_equal (fun x : request_spec => x !! "egressFilter")) in H.
    vm_compute in H. discriminate H.
Defined.

(** [to_dict] of a record of a reachable store, found under [name]:
    ["meshName"] is [name]; in ["metadata"], [arn] is the ARN of the
    backend's region and account and of [name], [version] is an integer
    that is at least 1, [createdAt] is the [datetime] object itself and
    [resourceOwner] is always [None], since no method ever writes
    [resource_owner]; ["status"] is the string ACTIVE. *)
Theorem to_dict_reachable (b : AppMeshBackend) (name : string) (m : Mesh) :
  reachable b → PyDict.get name (meshes b) = Some m →
  ∃ md v t,
    item (to_dict m) "meshName" = Some (PStr name) ∧
    item (to_dict m) "status" = Some (PStr "ACTIVE") ∧
    item (to_dict m) "metadata" = Some (PDict md) ∧
    md !! "arn"
    = Some (PStr ("arn:aws:appmesh:" +:+ region_name b +:+ ":" +:+ account_id b
                  +:+ ":" +:+ name)) ∧
    md !! "version" = Some (PInt v) ∧ (1 ≤ v)%Z ∧
    md !! "createdAt" = Some (PDatetime t) ∧
    md !! "resourceOwner" = Some PNone.
Proof.
  intros Hr Hget.
  destruct (shaped_get _ _ _ (reachable_shaped _ Hr) Hget)
    as (Hn & Hdm & Harn & (t & Hc) & _ & _ & _ & (v & Hv & Hv1) & _ & _ & Hst).
  eexists _, v, t. unfold to_dict, item.
  split_and!.
  - by rewrite lookup_insert_eq, Hn.
  - rewrite !lookup_insert_ne by done. by rewrite lookup_singleton_eq, Hst.
  - rewrite lookup_insert_ne by done. by rewrite lookup_insert_eq.
  - rewrite lookup_insert_eq. unfold metadata_get. by rewrite Harn.
  - rewrite !lookup_insert_ne by done. rewrite lookup_singleton_eq.
    unfold metadata_get. by rewrite Hv.
  - done.
  - rewrite lookup_insert_ne by done. rewrite lookup_insert_eq.
    unfold metadata_get. by rewrite Hc.
  - rewrite !lookup_insert_ne by done. rewrite lookup_insert_eq.
    unfold metadata_get.
    assert (metadata m !! "resource_owner" = None) as ->; [|done].
    apply not_elem_of_dom. rewrite Hdm. set_solver.
Qed.

Lemma to_dict_reachable_witness :
  let m := new_mesh env0 (init "us-east-1" "123456789012") "m1" spec_full None in
  ∃ md v t,
    item (to_dict m) "meshName" = Some (PStr "m1") ∧
    item (to_dict m) "status" = Some (PStr "ACTIVE") ∧
    item (to_dict m) "metadata" = Some (PDict md) ∧
    md !! "arn"
    = Some (PStr ("arn:aws:appmesh:" +:+ region_name backend_m1 +:+ ":"
                  +:+ account_id backend_m1 +:+ ":" +:+ "m1")) ∧
    md !! "version" = Some (PInt v) ∧ (1 ≤ v)%Z ∧
    md !! "createdAt" = Some (PDatetime t) ∧
    md !! "resourceOwner" = Some PNone.
Proof.
  apply (to_dict_reachable backend_m1 "m1").
  - apply reachable_backend_m1.
  - reflexivity.
Defined.

(** ** The handlers that return a mesh *)
Section Handlers.
Implicit Types (b : AppMeshBackend) (m : Mesh) (name : string).

Lemma encode_raises (c : M Mesh) (wrap : Mesh → pyval) b :
  (∀ b' m, c b = (b', inr m) → json_dumps (wrap m) = inl TypeError) →
  ∃ x, ((c ≫= fun mesh => lift (json_dumps (wrap mesh))) b).2 = inl x.
Proof.
  intros Hc. unfold mbind, M_bind, bind, lift.
  destruct (c b) as [b' [x|m]] eqn:Hcb; [by eexists|].
  rewrite (Hc b' m eq_refl). by eexists.
Qed.

Lemma describe_mesh_inv name owner m b b' :
  describe_mesh name owner b = (b', inr m) →
  b' = b ∧ PyDict.get name (meshes b) = Some m.
Proof.
  destruct (PyDict.get name (meshes b)) as [m0|] eqn:Hget.
  - rewrite (describe_mesh_ok name owner m0 b) by done. by intros [= <- <-].
  - by rewrite describe_mesh_absent.
Qed.

Lemma update_mesh_inv e tok name sp m b b' :
  update_mesh e tok name sp b = (b', inr m) →
  b' = (run (UpdateMesh e tok name sp) b).1 ∧
  PyDict.get name (meshes b') = Some m.
Proof.
  intros Hup. split.
  - simpl. by rewrite fmap_state, Hup.
  - revert Hup. unfold update_mesh. destruct (negb _); [done|].
    apply bind_getitem_inv.
Qed.

Lemma reachable_created_at name m b :
  reachable b → PyDict.get name (meshes b) = Some m →
  ∃ t, metadata m !! "created_at" = Some (MDatetime t).
Proof.
  intros Hr Hget.
  by destruct (shaped_get _ _ _ (reachable_shaped _ Hr) Hget)
    as (_ & _ & _ & Hc & _).
Qed.
End Handlers.

(** The [create_mesh] handler, given a spec, stores the mesh and then fails:
    the backend call succeeds and writes the record, and [json.dumps] raises
    [TypeError] on the [datetime] that [to_dict] passes on under
    [createdAt].  The request ends in an error and the mesh is in the
    store. *)
Theorem create_mesh_handler_stores_then_raises
    (e : env) (tok : option string) (name : string) (d : request_spec)
    (tgs : option (list (gmap string string))) (b : AppMeshBackend) :
  (AppMeshResponse.create_mesh e tok name (Some d) tgs b).2 = inl TypeError ∧
  (AppMeshResponse.create_mesh e tok name (Some d) tgs b).1
  = (create_mesh e tok name (Some d) tgs b).1 ∧
  PyDict.get name (meshes (AppMeshResponse.create_mesh e tok name (Some d) tgs b).1)
  = Some (new_mesh e b name d tgs).
Proof.
  unfold AppMeshResponse.create_mesh.
  rewrite (bind_ok _ _ b _ _ (create_mesh_ok e tok name d tgs b)).
  unfold lift.
  destruct (json_dumps_mesh (new_mesh e b name d tgs) (now e) eq_refl) as [_ ->].
  split_and!; [done..|]. apply get_set_meshes.
Qed.

(** On a reachable store none of the four handlers that return a mesh ever
    produces a response: [create_mesh], [update_mesh], [describe_mesh] and
    [delete_mesh] of [AppMeshResponse] all end in an exception, whatever
    their arguments. *)
Theorem mesh_handlers_never_respond
    (e : env) (tok : option string) (name : string)
    (sp : option request_spec) (tgs : option (list (gmap string string)))
    (owner : option string) (b : AppMeshBackend) :
  reachable b →
  (∃ x, (AppMeshResponse.create_mesh e tok name sp tgs b).2 = inl x) ∧
  (∃ x, (AppMeshResponse.update_mesh e tok name sp b).2 = inl x) ∧
  (∃ x, (AppMeshResponse.describe_mesh name owner b).2 = inl x) ∧
  (∃ x, (AppMeshResponse.delete_mesh name b).2 = inl x).
Proof.
  intros Hr. split_and!.
  - apply encode_raises. intros b' m Hc.
    destruct sp as [d|]; [|done]. rewrite create_mesh_ok in Hc.
    injection Hc as _ <-.
    by destruct (json_dumps_mesh (new_mesh e b name d tgs) (now e) eq_refl).
  - apply encode_raises. intros b' m Hc.
    apply update_mesh_inv in Hc as [-> Hget].
    destruct (reachable_created_at _ _ _ (reachable_run _ _ Hr) Hget) as [t Ht].
    by destruct (json_dumps_mesh m t Ht).
  - apply encode_raises. intros b' m Hc.
    apply describe_mesh_inv in Hc as [-> Hget].
    destruct (reachable_created_at _ _ _ Hr Hget) as [t Ht].
    by destruct (json_dumps_mesh m t Ht).
  - apply encode_raises. intros b' m Hc.
    destruct (delete_mesh_raises name b) as [x Hx]. by rewrite Hc in Hx.
Qed.

Lemma mesh_handlers_never_respond_witness :
  (∃ x, (AppMeshResponse.create_mesh env1 None "m1" (Some spec_egress_only) None
           backend_m1).2 = inl x) ∧
  (∃ x, (AppMeshResponse.update_mesh env1 None "m1" (Some spec_egress_only)
           backend_m1).2 = inl x) ∧
  (∃ x, (AppMeshResponse.describe_mesh "m1" None backend_m1).2 = inl x) ∧
  (∃ x, (AppMeshResponse.delete_mesh "m1" backend_m1).2 = inl x).
Proof.
  apply (mesh_handlers_never_respond env1 None "m1" (Some spec_egress_only)
           None None backend_m1).
  apply reachable_backend_m1.
Defined.

(** * The argument translation of [TransferResponse] *)
Section Translation.
Import TransferResponse.
Implicit Types (v : pyval) (d : gmap string pyval) (params : gmap string pyval).

Lemma pick_dict fields d :
  pick fields (PDict d)
  = inr (foldr (fun ie acc => <[ie.1 := get d ie.2]> acc) ∅ fields).
Proof.
  induction fields as [|[i x] fields IH]; [done|]. simpl. by rewrite IH.
Qed.

Lemma translated_not_dict i x fields v :
  ¬ is_dict v → translated ((i, x) :: fields) v = inl AttributeError.
Proof.
  intros Hv. unfold translated. simpl.
  destruct v; try done. exfalso. apply Hv. by eexists.
Qed.

Lemma try_map_dicts fields (ds : list (gmap string pyval)) :
  try_map (translated fields) (PDict <$> ds)
  = inr ((fun d =>
            PDict (foldr (fun ie acc => <[ie.1 := get d ie.2]> acc) ∅ fields))
           <$> ds).
Proof.
  induction ds as [|d ds IH]; [done|]. rewrite !fmap_cons. cbn [try_map].
  unfold translated at 1. rewrite pick_dict. cbn [and_then]. by rewrite IH.
Qed.

Lemma try_map_succeeds i x fields (l : list pyval) :
  (∃ r, try_map (translated ((i, x) :: fields)) l = inr r) ↔ Forall is_dict l.
Proof.
  induction l as [|v l IH].
  - split; [constructor|]. by eexists.
  - split.
    + intros [r Hr]. simpl in Hr.
      destruct (translated ((i, x) :: fields) v) as [y|w] eqn:Hv; [done|].
      simpl in Hr. constructor.
      * destruct v; try done. by eexists.
      * apply IH. destruct (try_map _ l); [done|]. by eexists.
    + intros Hall. apply Forall_cons in Hall as [[d ->] Hl].
      apply IH in Hl as [r Hr]. simpl. unfold translated at 1.
      rewrite pick_dict. simpl. rewrite Hr. by eexists.
Qed.

Lemma block_succeeds key i x fields params :
  (∃ r, block key ((i, x) :: fields) params = inr r) ↔
  get params key = PNone ∨ is_dict (get params key).
Proof.
  unfold block. destruct (get params key) eqn:Hv;
    try (split; [intros [r Hr]; done | intros [?|[? ?]]; done]).
  - split; [by left|]. by eexists.
  - split; [intros _; right; by eexists|]. intros _.
    unfold translated. rewrite pick_dict. by eexists.
Qed.

Lemma block_absent key fields params :
  params !! key = None → block key fields params = inr PNone.
Proof. intros H. unfold block, get. by rewrite H. Qed.
End Translation.

(** A list of dicts under [HomeDirectoryMappings] is rebuilt element by
    element, in the same order and with the same length: each mapping
    becomes a dict with exactly the keys [entry], [target] and [type],
    holding what the mapping has under [Entry], [Target] and [Type], [None]
    for what it lacks; any other key of the mapping is dropped. *)
Theorem home_directory_mappings_translates
    (params : gmap string pyval) (ds : list (gmap string pyval)) :
  params !! "HomeDirectoryMappings" = Some (PList (PDict <$> ds)) →
  TransferResponse.home_directory_mappings params
  = inr (PList
      ((fun d =>
          PDict {[ "entry" := TransferResponse.get d "Entry";
                   "target" := TransferResponse.get d "Target";
                   "type" := TransferResponse.get d "Type" ]}) <$> ds)).
Proof.
  intros Hp.
  assert (TransferResponse.get params "HomeDirectoryMappings"
          = PList (PDict <$> ds)) as Hv.
  { unfold TransferResponse.get. by rewrite Hp. }
  unfold TransferResponse.home_directory_mappings. cbv zeta. rewrite Hv.
  destruct ds as [|d ds]; [reflexivity|].
  cbn [TransferResponse.py_len TransferResponse.and_then].
  rewrite decide_True by (rewrite length_fmap; simpl; lia).
  cbn [TransferResponse.py_iter TransferResponse.and_then].
  rewrite try_map_dicts. done.
Qed.

Lemma home_directory_mappings_translates_witness :
  TransferResponse.home_directory_mappings TransferResponse.user_params
  = inr (PList
      ((fun d =>
          PDict {[ "entry" := TransferResponse.get d "Entry";
                   "target" := TransferResponse.get d "Target";
                   "type" := TransferResponse.get d "Type" ]})
         <$> [TransferResponse.mapping_1; TransferResponse.mapping_2])).
Proof.
  apply (home_directory_mappings_translates TransferResponse.user_params
           [TransferResponse.mapping_1; TransferResponse.mapping_2]).
  reflexivity.
Defined.

(** The arguments of [create_user] are built exactly when
    [HomeDirectoryMappings] is absent or [None], or empty (an empty list,
    dict or string, which is passed on as it is), or a list whose elements
    are all dicts, and [PosixProfile] is absent, [None] or a dict.  In
    every other case the handler raises before it reaches the backend. *)
Theorem create_user_arguments_succeeds (params : gmap string pyval) :
  (∃ args, TransferResponse.create_user_arguments params = inr args) ↔
  (TransferResponse.get params "HomeDirectoryMappings" = PNone ∨
   TransferResponse.get params "HomeDirectoryMappings" = PStr "" ∨
   TransferResponse.get params "HomeDirectoryMappings" = PDict ∅ ∨
   ∃ l, TransferResponse.get params "HomeDirectoryMappings" = PList l ∧
        Forall TransferResponse.is_dict l) ∧
  (TransferResponse.get params "PosixProfile" = PNone ∨
   TransferResponse.is_dict (TransferResponse.get params "PosixProfile")).
Proof.
  assert ((∃ r, TransferResponse.home_directory_mappings params = inr r) ↔
          (TransferResponse.get params "HomeDirectoryMappings" = PNone ∨
           TransferResponse.get params "HomeDirectoryMappings" = PStr "" ∨
           TransferResponse.get params "HomeDirectoryMappings" = PDict ∅ ∨
           ∃ l, TransferResponse.get params "HomeDirectoryMappings" = PList l ∧
                Forall TransferResponse.is_dict l)) as Hm.
  { unfold TransferResponse.home_directory_mappings.
    destruct (TransferResponse.get params "HomeDirectoryMappings") as [|?|?|s| | |l|d];
      simpl.
    - split; [by left|]. by eexists.
    - split; [by intros [? ?]|]. intros [?|[?|[?|(? & ? & _)]]]; done.
    - split; [by intros [? ?]|]. intros [?|[?|[?|(? & ? & _)]]]; done.
    - destruct s as [|c s]; simpl.
      + split; [auto|]. by eexists.
      + split; [by intros [? ?]|]. intros [?|[?|[?|(? & ? & _)]]]; done.
    - split; [by intros [? ?]|]. intros [?|[?|[?|(? & ? & _)]]]; done.
    - split; [by intros [? ?]|]. intros [?|[?|[?|(? & ? & _)]]]; done.
    - destruct l as [|v l].
      + simpl. split; [|by eexists]. intros _. do 3 right. by exists [].
      + rewrite decide_True by (simpl; lia).
        pose proof (try_map_succeeds "entry" "Entry"
                      [("target", "Target"); ("type", "Type")] (v :: l)) as Hl.
        fold TransferResponse.home_directory_mapping_fields in Hl.
        split.
        * intros [r Hr]. do 3 right. exists (v :: l). split; [done|].
          apply Hl.
          destruct (TransferResponse.try_map _ (v :: l)); [done|]. by eexists.
        * intros [?|[?|[?|(l' & [= <-] & Hall)]]]; try done.
          apply Hl in Hall as [r ->]. by eexists.
    - destruct (decide (d = ∅)) as [->|Hd].
      + rewrite map_size_empty. simpl. split; [auto|]. by eexists.
      + assert (0 < size d)%nat as Hs.
        { destruct (size d) eqn:Hsz; [|lia].
          by apply map_size_empty_iff in Hsz. }
        rewrite decide_True by done.
        destruct (map_to_list d) as [|[k x] kxs] eqn:Hl.
        { by apply map_to_list_empty_iff in Hl. }
        simpl. split; [by intros [? ?]|].
        intros [?|[?|[[= ?]|(? & ? & _)]]]; done. }
  pose proof (block_succeeds "PosixProfile" "gid" "Gid"
                [("uid", "Uid"); ("secondary_gids", "SecondaryGids")] params) as Hp.
  fold TransferResponse.posix_profile_fields in Hp.
  fold TransferResponse.posix_profile in Hp.
  rewrite <- Hm, <- Hp. unfold TransferResponse.create_user_arguments.
  destruct (TransferResponse.home_directory_mappings params) as [x|mappings];
    simpl.
  { split; [by intros [? ?]|]. by intros [[? ?] _]. }
  destruct (TransferResponse.posix_profile params) as [x|profile]; simpl.
  { split; [by intros [? ?]|]. by intros [_ [? ?]]. }
  split; [intros _; split; by eexists|]. intros _. by eexists.
Qed.



(** A request without any of the five nested blocks: [create_server] builds
    its arguments without error, each of the five block arguments is
    [None], and nothing is filled in for them. *)
Theorem create_server_arguments_absent_blocks (params : gmap string pyval) :
  params !! "EndpointDetails" = None →
  params !! "IdentityProviderDetails" = None →
  params !! "ProtocolDetails" = None →
  params !! "S3StorageOptions" = None →
  params !! "WorkflowDetails" = None →
  ∃ args,
    TransferResponse.create_server_arguments params = inr args ∧
    args !! "endpoint_details" = Some PNone ∧
    args !! "identity_provider_details" = Some PNone ∧
    args !! "protocol_details" = Some PNone ∧
    args !! "s3_storage_options" = Some PNone ∧
    args !! "workflow_details" = Some PNone.
Proof.
  intros H1 H2 H3 H4 H5. unfold TransferResponse.create_server_arguments.
  unfold TransferResponse.endpoint_details,
    TransferResponse.identity_provider_details,
    TransferResponse.protocol_details, TransferResponse.s3_storage_options.
  rewrite !block_absent by done.
  assert (TransferResponse.get params "WorkflowDetails" = PNone) as Hv.
  { unfold TransferResponse.get. by rewrite H5. }
  unfold TransferResponse.workflow_details. cbv zeta. rewrite Hv.
  cbn [TransferResponse.and_then].
  eexists. split; [reflexivity|]. split_and!; reflexivity.
Qed.

Lemma create_server_arguments_absent_blocks_witness :
  ∃ args,
    TransferResponse.create_server_arguments {[ "Domain" := PStr "S3" ]}
    = inr args ∧
    args !! "endpoint_details" = Some PNone ∧
    args !! "identity_provider_details" = Some PNone ∧
    args !! "protocol_details" = Some PNone ∧
    args !! "s3_storage_options" = Some PNone ∧
    args !! "workflow_details" = Some PNone.
Proof.
  apply (create_server_arguments_absent_blocks {[ "Domain" := PStr "S3" ]});
    reflexivity.
Defined.
